(** * mcp-forge: the conformance test client ([src/mcp_forge/tester.py])

    A shallow embedding of [TestResult], [TestReport], [MCPTestClient] and
    [run_test_suite], followed by the properties of the probe suite.

    Python objects decoded from the wire are values of [pyval]; the client
    object and the report are threaded as explicit state; exceptions are an
    explicit outcome ([Err]) and [try ... except Exception] is [try_except].
    The child process, the pipes and the JSON codec are the environment
    ([environment]): it says whether the child can be spawned, what each
    request/response exchange yields and when the child exits once asked to
    terminate.  Every blocking call is taken to return. *)

From Stdlib Require Import String Ascii ZArith List Bool Lia.
From Stdlib Require Import DecimalString SpecFloat.
From stdpp Require Import base option gmap strings.
Import ListNotations.
Local Open Scope string_scope.

(** ** Values decoded by [json.loads] *)

(** The Python objects [json.loads] can return.  A [dict] decoded from JSON
    has string keys; it is kept as a finite map, without the insertion order
    that only [str()] could show. *)
#[local] Set Warnings "-register-all".
Inductive pyval : Type :=
| PNone
| PBool (b : bool)
| PInt (z : Z)
| PFloat (f : spec_float)
| PStr (s : string)
| PList (l : list pyval)
| PDict (d : gmap string pyval).

(** [type(v).__name__], as it appears in the interpreter's error messages. *)
Definition type_name (v : pyval) : string :=
  match v with
  | PNone => "NoneType"
  | PBool _ => "bool"
  | PInt _ => "int"
  | PFloat _ => "float"
  | PStr _ => "str"
  | PList _ => "list"
  | PDict _ => "dict"
  end.

(** [bool(v)]: the truth value tested by [if v:]. *)
Definition truthy (v : pyval) : bool :=
  match v with
  | PNone => false
  | PBool b => b
  | PInt z => negb (Z.eqb z 0)
  | PFloat f => match f with S754_zero _ => false | _ => true end
  | PStr s => negb (Nat.eqb (String.length s) 0)
  | PList l => negb (Nat.eqb (length l) 0)
  | PDict d => negb (Nat.eqb (size d) 0)
  end.

(** [isinstance(v, list)]. *)
Definition isinstance_list (v : pyval) : bool :=
  match v with PList _ => true | _ => false end.


(** ** Exceptions and results *)

(** An exception object: its class and [str(exc)].  Every class raised in
    this module derives from [Exception], so [except Exception] catches all
    of them. *)
Inductive exn : Type :=
| Exn (cls : string) (msg : string).

Definition exn_str (e : exn) : string :=
  match e with Exn _ msg => msg end.

Definition RuntimeError := Exn "RuntimeError".
Definition TypeError := Exn "TypeError".
Definition KeyError := Exn "KeyError".
Definition IndexError := Exn "IndexError".
Definition AttributeError := Exn "AttributeError".

(** The result of evaluating an expression: a value or a raised exception. *)
Inductive res (A : Type) : Type :=
| Ok (a : A)
| Err (e : exn).
Arguments Ok {A} a.
Arguments Err {A} e.

(** ** The operators the probes apply to decoded values

    Message texts are CPython 3.11's. *)

(** [needle in hay] on two [str]: the substring test. *)
Fixpoint str_contains (needle hay : string) : bool :=
  String.prefix needle hay ||
  match hay with
  | EmptyString => false
  | String _ rest => str_contains needle rest
  end.

(** [k == v] for a [str] k. *)
Definition str_eq (k : string) (v : pyval) : bool :=
  match v with
  | PStr s => String.eqb k s
  | _ => false
  end.

(** [k in v] for a [str] k: key membership on a dict, element membership on
    a list, substring on a str, [TypeError] on anything else. *)
Definition py_in (k : string) (v : pyval) : res bool :=
  match v with
  | PDict d => Ok (bool_decide (is_Some (d !! k)))
  | PList l => Ok (existsb (str_eq k) l)
  | PStr s => Ok (str_contains k s)
  | _ => Err (TypeError ("argument of type '" ++ type_name v ++ "' is not iterable"))
  end.

(** [v[k]] for a [str] k (the keys used are plain identifiers, whose [repr]
    is the key between single quotes). *)
Definition py_getitem (v : pyval) (k : string) : res pyval :=
  match v with
  | PDict d =>
      match d !! k with
      | Some x => Ok x
      | None => Err (KeyError ("'" ++ k ++ "'"))
      end
  | PList _ => Err (TypeError "list indices must be integers or slices, not str")
  | PStr _ => Err (TypeError "string indices must be integers, not 'str'")
  | _ => Err (TypeError ("'" ++ type_name v ++ "' object is not subscriptable"))
  end.

(** [v[0]]. A dict decoded from JSON has no integer key. *)
Definition py_getitem0 (v : pyval) : res pyval :=
  match v with
  | PList l =>
      match l with
      | x :: _ => Ok x
      | [] => Err (IndexError "list index out of range")
      end
  | PStr s =>
      match s with
      | String c _ => Ok (PStr (String c EmptyString))
      | EmptyString => Err (IndexError "string index out of range")
      end
  | PDict _ => Err (KeyError "0")
  | _ => Err (TypeError ("'" ++ type_name v ++ "' object is not subscriptable"))
  end.

(** [v.get(k, dflt)]. *)
Definition py_get (v : pyval) (k : string) (dflt : pyval) : res pyval :=
  match v with
  | PDict d => Ok (default dflt (d !! k))
  | _ => Err (AttributeError ("'" ++ type_name v ++ "' object has no attribute 'get'"))
  end.

(** [len(v)]. *)
Definition py_len (v : pyval) : res nat :=
  match v with
  | PList l => Ok (length l)
  | PStr s => Ok (String.length s)
  | PDict d => Ok (size d)
  | _ => Err (TypeError ("object of type '" ++ type_name v ++ "' has no len()"))
  end.

(** [str(b)] and [str(n)] as f-strings print them. *)
Definition str_bool (b : bool) : string := if b then "True" else "False".
Definition str_nat (n : nat) : string := NilZero.string_of_uint (Nat.to_uint n).

(** ** [TestResult] and [TestReport] *)

Module TestResult.
(** [@dataclass class TestResult]; [response] defaults to Python's [None]. *)
Record t : Type := mk {
  name : string;
  passed : bool;
  message : string;
  response : option pyval
}.
End TestResult.

Module TestReport.
(** [@dataclass class TestReport]: the only stored field is [results]. *)
Record t : Type := mk {
  results : list TestResult.t
}.

(** [sum(1 for r in self.results if r.passed)] *)
Definition passed (self : t) : nat :=
  sum_list (map (fun _ => 1) (filter (fun r => TestResult.passed r = true) (results self))).

(** [sum(1 for r in self.results if not r.passed)] *)
Definition failed (self : t) : nat :=
  sum_list (map (fun _ => 1) (filter (fun r => negb (TestResult.passed r) = true) (results self))).

(** [len(self.results)] *)
Definition total (self : t) : nat :=
  length (results self).

(** [report.results.append(r)] *)
Definition append (self : t) (r : TestResult.t) : t :=
  mk (results self ++ [r])%list.
End TestReport.

(** ** The client object and its environment *)

(** The handle returned by [subprocess.Popen]. *)
Record Popen : Type := { args : list string; popen_cwd : option string }.

(** [class MCPTestClient]: the four attributes set by [__init__]. *)
Record MCPTestClient : Type := {
  server_cmd : list string;
  cwd : option string;
  _process : option Popen;
  _request_id : Z
}.

(** What one [send_request] exchange yields once the request is built:
    writing or flushing the child's stdin raises; [readline] returns no
    bytes (the pipe is closed); [decode] or [json.loads] raises; or a value
    is decoded. *)
Inductive reply : Type :=
| WriteError (e : exn)
| EndOfStream
| DecodeError (e : exn)
| Reply (v : pyval).

(** The child process as the client sees it.
    - [spawn cmd cwd]: [None] when [Popen] succeeds, [Some exc] when it raises;
    - [exchange reqs]: what the exchange for the last request of [reqs]
      yields, [reqs] being every request written so far, oldest first;
    - [exit_delay]: how long after [terminate()] the child exits ([None]:
      it never does). *)
Record environment : Type := {
  spawn : list string -> option string -> option exn;
  exchange : list pyval -> reply;
  exit_delay : option nat
}.

(** The state a run threads: the client object, every request written to the
    child so far and the time spent waiting for the child to exit. *)
Record state : Type := {
  client : MCPTestClient;
  wire : list pyval;
  waited : nat
}.

(** A statement: it ends normally with a value or raises, and leaves a state
    either way. *)
Definition M (A : Type) : Type := state -> res A * state.

Definition ret {A} (a : A) : M A := fun st => (Ok a, st).

Definition raise {A} (e : exn) : M A := fun st => (Err e, st).

Definition bind {A B} (m : M A) (k : A -> M B) : M B :=
  fun st =>
    match m st with
    | (Ok a, st') => k a st'
    | (Err e, st') => (Err e, st')
    end.

(** [try: body / except Exception as exc: handler] *)
Definition try_except {A} (body : M A) (handler : exn -> M A) : M A :=
  fun st =>
    match body st with
    | (Ok a, st') => (Ok a, st')
    | (Err e, st') => handler e st'
    end.

(** An expression that does not touch the state. *)
Definition eval {A} (r : res A) : M A := fun st => (r, st).

Notation "x <- m ;; k" := (bind m (fun x => k))
  (at level 100, m at next level, right associativity).

Definition set_client (f : MCPTestClient -> MCPTestClient) : M unit :=
  fun st => (Ok tt, {| client := f (client st); wire := wire st; waited := waited st |}).

Definition get_client : M MCPTestClient :=
  fun st => (Ok (client st), st).

Section Tester.

(** The child process under test. *)
Variable E : environment.

(** [str(v)] on a decoded value, as f-strings and [%s] apply it.  Its text
    (quoting, float digits, key order) belongs to the interpreter. *)
Variable py_str : pyval -> string.

(** [MCPTestClient(server_cmd, cwd=cwd)] *)
Definition MCPTestClient_init (server_cmd : list string) (cwd : option string)
  : MCPTestClient :=
  {| server_cmd := server_cmd; cwd := cwd; _process := None; _request_id := 0 |}.

(** [MCPTestClient.start] *)
Definition start : M unit :=
  self <- get_client ;;
  match spawn E (server_cmd self) (cwd self) with
  | Some exc => raise exc
  | None =>
      set_client (fun c =>
        {| server_cmd := server_cmd c; cwd := cwd c;
           _process := Some {| args := server_cmd c; popen_cwd := cwd c |};
           _request_id := _request_id c |})
  end.

(** [subprocess.TimeoutExpired(cmd, timeout)] *)
Definition TimeoutExpired (cmd : list string) (timeout : nat) : exn :=
  Exn "TimeoutExpired"
      ("Command '" ++ py_str (PList (map PStr cmd)) ++ "' timed out after "
         ++ str_nat timeout ++ " seconds").

(** [Popen.wait(timeout=timeout)] on a child that was asked to terminate:
    returns once the child has exited, raises [TimeoutExpired] when
    [timeout] has elapsed first. *)
Definition Popen_wait (p : Popen) (timeout : nat) : M unit :=
  fun st =>
    let spend (d : nat) :=
      {| client := client st; wire := wire st; waited := waited st + d |} in
    match exit_delay E with
    | Some d =>
        if (d <=? timeout)%nat then (Ok tt, spend d)
        else (Err (TimeoutExpired (args p) timeout), spend timeout)
    | None => (Err (TimeoutExpired (args p) timeout), spend timeout)
    end.

(** [MCPTestClient.stop]; [terminate()] only delivers the signal. *)
Definition stop : M unit :=
  self <- get_client ;;
  match _process self with
  | Some p =>
      _ <- Popen_wait p 5 ;;
      set_client (fun c =>
        {| server_cmd := server_cmd c; cwd := cwd c;
           _process := None; _request_id := _request_id c |})
  | None => ret tt
  end.

(** The [request] dict built by [send_request]; [params] is added only
    when it is truthy. *)
Definition build_request (id : Z) (method : string) (params : pyval) : pyval :=
  let request : gmap string pyval :=
    {[ "jsonrpc" := PStr "2.0"; "id" := PInt id; "method" := PStr method ]} in
  PDict (if truthy params then <[ "params" := params ]> request else request).

(** [MCPTestClient.send_request].  The pipes of a started child exist, so
    the guard reduces to [self._process]. *)
Definition send_request (method : string) (params : pyval) : M pyval :=
  self <- get_client ;;
  match _process self with
  | None => raise (RuntimeError "Server not started")
  | Some _ =>
      let id := (_request_id self + 1)%Z in
      let request := build_request id method params in
      fun st =>
        let st' :=
          {| client := {| server_cmd := server_cmd self; cwd := cwd self;
                          _process := _process self; _request_id := id |};
             wire := (wire st ++ [request])%list;
             waited := waited st |} in
        match exchange E (wire st') with
        | WriteError exc => (Err exc, st')
        | EndOfStream => (Err (RuntimeError "No response from server"), st')
        | DecodeError exc => (Err exc, st')
        | Reply v => (Ok v, st')
        end
  end.

(** *** The probes of [run_test_suite]

    Every path through a [try] body ends with its single
    [report.results.append(TestResult(...))]; the body is written as the
    computation of that [TestResult], and [probe] is the [try]/[except]
    around it. *)

Definition initialize_params : pyval :=
  PDict {[ "protocolVersion" := PStr "2024-11-05";
           "capabilities" := PDict ∅;
           "clientInfo" := PDict {[ "name" := PStr "mcp-forge-tester";
                                    "version" := PStr "0.1.0" ]} ]}.

(** [f"Error: {resp.get('error')}"] *)
Definition error_message (resp : pyval) : M string :=
  err <- eval (py_get resp "error" PNone) ;;
  ret ("Error: " ++ py_str err).

Definition initialize_body : M TestResult.t :=
  resp <- send_request "initialize" initialize_params ;;
  has_result <- eval (py_in "result" resp) ;;
  if has_result then
    result <- eval (py_getitem resp "result") ;;
    has_version <- eval (py_in "protocolVersion" result) ;;
    has_info <- eval (py_in "serverInfo" result) ;;
    has_caps <- eval (py_in "capabilities" result) ;;
    let ok := has_version && has_info && has_caps in
    let msg :=
      if ok then "initialize response valid"
      else "Missing fields: version=" ++ str_bool has_version
             ++ " info=" ++ str_bool has_info
             ++ " caps=" ++ str_bool has_caps in
    ret (TestResult.mk "initialize" ok msg (Some resp))
  else
    msg <- error_message resp ;;
    ret (TestResult.mk "initialize" false msg (Some resp)).

Definition tools_list_body : M TestResult.t :=
  resp <- send_request "tools/list" PNone ;;
  has_result <- eval (py_in "result" resp) ;;
  if has_result then
    result <- eval (py_getitem resp "result") ;;
    tools <- eval (py_get result "tools" (PList [])) ;;
    let ok := isinstance_list tools in
    n <- eval (py_len tools) ;;
    ret (TestResult.mk "tools/list" ok ("Found " ++ str_nat n ++ " tools") (Some resp))
  else
    msg <- error_message resp ;;
    ret (TestResult.mk "tools/list" false msg (Some resp)).

Definition tools_call_params (tool_name : pyval) : pyval :=
  PDict {[ "name" := tool_name;
           "arguments" := PDict {[ "query" := PStr "test" ]} ]}.

Definition tools_call_body : M TestResult.t :=
  resp <- send_request "tools/list" PNone ;;
  result <- eval (py_get resp "result" (PDict ∅)) ;;
  tools <- eval (py_get result "tools" (PList [])) ;;
  if truthy tools then
    tool <- eval (py_getitem0 tools) ;;
    tool_name <- eval (py_getitem tool "name") ;;
    resp2 <- send_request "tools/call" (tools_call_params tool_name) ;;
    has_result <- eval (py_in "result" resp2) ;;
    if has_result then
      result2 <- eval (py_getitem resp2 "result") ;;
      content <- eval (py_get result2 "content" (PList [])) ;;
      n <- eval (py_len content) ;;
      let ok := (0 <? n)%nat in
      ret (TestResult.mk "tools/call" ok
             ("Called '" ++ py_str tool_name ++ "' successfully") (Some resp2))
    else
      msg <- error_message resp2 ;;
      ret (TestResult.mk "tools/call" false msg (Some resp2))
  else
    ret (TestResult.mk "tools/call" true "No tools to test (skipped)" None).

Definition ping_body : M TestResult.t :=
  resp <- send_request "ping" PNone ;;
  ok <- eval (py_in "result" resp) ;;
  msg <- (if ok then ret "Ping OK" else error_message resp) ;;
  ret (TestResult.mk "ping" ok msg (Some resp)).

Definition unknown_method_body : M TestResult.t :=
  resp <- send_request "nonexistent/method" PNone ;;
  ok <- eval (py_in "error" resp) ;;
  ret (TestResult.mk "unknown_method" ok
         (if ok then "Correctly returned error for unknown method"
          else "Should have returned error")
         (Some resp)).

(** [try: body / except Exception as exc:
      report.results.append(TestResult(name, False, str(exc)))] *)
Definition probe (name : string) (body : M TestResult.t) : M TestResult.t :=
  try_except body (fun exc => ret (TestResult.mk name false (exn_str exc) None)).

Definition initial_state (c : MCPTestClient) : state :=
  {| client := c; wire := []; waited := 0 |}.

(** The five request probes, in the order [run_test_suite] runs them, each
    appending its result to the report. *)
Definition request_probes (report : TestReport.t) : M TestReport.t :=
  r <- probe "initialize" initialize_body ;;
  let report := TestReport.append report r in
  r <- probe "tools/list" tools_list_body ;;
  let report := TestReport.append report r in
  r <- probe "tools/call" tools_call_body ;;
  let report := TestReport.append report r in
  r <- probe "ping" ping_body ;;
  let report := TestReport.append report r in
  r <- probe "unknown_method" unknown_method_body ;;
  ret (TestReport.append report r).

(** [run_test_suite(server_cmd, cwd)]: what the call yields (the report, or
    the exception that leaves it) and the final state. *)
Definition run_test_suite (server_cmd : list string) (cwd : option string)
  : res TestReport.t * state :=
  let report := TestReport.mk [] in
  let st := initial_state (MCPTestClient_init server_cmd cwd) in
  match start st with
  | (Err exc, st) =>
      (Ok (TestReport.append report
             (TestResult.mk "server_start" false (exn_str exc) None)), st)
  | (Ok _, st) =>
      let report :=
        TestReport.append report
          (TestResult.mk "server_start" true "Server started successfully" None) in
      (report <- request_probes report ;;
       _ <- stop ;;
       ret (TestReport.append report
              (TestResult.mk "server_stop" true "Server stopped cleanly" None))) st
  end.

End Tester.

(** ** Vocabulary of the statements *)

(** What [send_request] returns or raises for each kind of exchange. *)
Definition reply_result (rp : reply) : res pyval :=
  match rp with
  | WriteError exc => Err exc
  | EndOfStream => Err (RuntimeError "No response from server")
  | DecodeError exc => Err exc
  | Reply v => Ok v
  end.

(** The request [send_request method params] writes when called in [st]. *)
Definition next_request (st : state) (method : string) (params : pyval) : pyval :=
  build_request (_request_id (client st) + 1) method params.

(** The state [send_request method params] leaves when called in [st] with a
    child running. *)
Definition sent (st : state) (method : string) (params : pyval) : state :=
  {| client := {| server_cmd := server_cmd (client st); cwd := cwd (client st);
                  _process := _process (client st);
                  _request_id := _request_id (client st) + 1 |};
     wire := (wire st ++ [next_request st method params])%list;
     waited := waited st |}.

(** In [st] the child is running and the exchange for the request
    [method]/[params] yields [rp]. *)
Definition answers (E : environment) (st : state)
    (method : string) (params : pyval) (rp : reply) : Prop :=
  is_Some (_process (client st)) /\
  exchange E (wire st ++ [next_request st method params])%list = rp.

(** The wire carries a request for [method]. *)
Definition requests_method (method : string) (req : pyval) : Prop :=
  exists d, req = PDict d /\ d !! "method" = Some (PStr method).

(** A report holds a result called [name]. *)
Definition has_result (name : string) (report : TestReport.t) : Prop :=
  exists r, In r (TestReport.results report) /\ TestResult.name r = name.

(** The [server_start] probe passed. *)
Definition start_passed (report : TestReport.t) : Prop :=
  exists r, In r (TestReport.results report) /\
    TestResult.name r = "server_start" /\ TestResult.passed r = true.

(** The child exits within [timeout] of being asked to terminate. *)
Definition exits_within (E : environment) (timeout : nat) : Prop :=
  exists d, exit_delay E = Some d /\ d <= timeout.

(** The three keys the initialize probe looks for, with their presence in a
    result mapping. *)
Definition has_key (d : gmap string pyval) (k : string) : bool :=
  bool_decide (is_Some (d !! k)).

(** The message of a failing initialize probe, from the presence of each key. *)
Definition missing_fields (version info caps : bool) : string :=
  "Missing fields: version=" ++ str_bool version
    ++ " info=" ++ str_bool info ++ " caps=" ++ str_bool caps.

(** A value with positive [len]: a non-empty list, str or dict. *)
Definition nonempty_sized (v : pyval) : Prop :=
  match v with
  | PList l => l <> []
  | PStr s => s <> EmptyString
  | PDict d => d <> ∅
  | _ => False
  end.

(** Whatever [m] returns is a result called [name]. *)
Definition names_result (name : string) (m : M TestResult.t) : Prop :=
  forall st r st', m st = (Ok r, st') -> TestResult.name r = name.

(** [m] leaves the process handle and the time waited as they were. *)
Definition keeps_process {A} (m : M A) : Prop :=
  forall st x st', m st = (x, st') ->
    _process (client st') = _process (client st)
    /\ waited st' = waited st.

(** [st] once [stop] has seen the child exit after [d]. *)
Definition stopped_after (st : state) (d : nat) : state :=
  {| client := {| server_cmd := server_cmd (client st); cwd := cwd (client st);
                  _process := None; _request_id := _request_id (client st) |};
     wire := wire st;
     waited := waited st + d |}.

(** [st] once [stop] has given up waiting after [d]. *)
Definition gave_up_after (st : state) (d : nat) : state :=
  {| client := client st; wire := wire st; waited := waited st + d |}.

(** ** Sample children, for the closed statements *)

(** A rendering of decoded values good enough for short strings. *)
Definition plain_str (v : pyval) : string :=
  match v with
  | PStr s => s
  | PNone => "None"
  | PBool b => str_bool b
  | _ => "<" ++ type_name v ++ ">"
  end.

(** The method of the last request written. *)
Definition last_method (reqs : list pyval) : string :=
  match last reqs with
  | Some (PDict d) =>
      match d !! "method" with
      | Some (PStr m) => m
      | _ => ""
      end
  | _ => ""
  end.

(** A child that answers by a table from method to reply (anything else gets
    a JSON-RPC error) and exits [exit] after being asked to. *)
Definition table_server (table : list (string * pyval)) (exit : option nat)
  : environment :=
  {| spawn := fun _ _ => None;
     exchange := fun reqs =>
       match list_find (fun e => fst e = last_method reqs) table with
       | Some (_, (_, v)) => Reply v
       | None => Reply (PDict {[ "error" := PDict {[ "code" := PInt (-32601) ]} ]})
       end;
     exit_delay := exit |}.

(** The reply [{"result": d}]. *)
Definition result_map (d : gmap string pyval) : gmap string pyval :=
  {[ "result" := PDict d ]}.

Definition result_of (d : gmap string pyval) : pyval := PDict (result_map d).

Definition initialize_result : gmap string pyval :=
  {[ "protocolVersion" := PStr "2024-11-05";
     "serverInfo" := PDict {[ "name" := PStr "echo" ]};
     "capabilities" := PDict ∅ ]}.

Definition echo_tool : gmap string pyval := {[ "name" := PStr "echo" ]}.

Definition one_tool : gmap string pyval := {[ "tools" := PList [PDict echo_tool] ]}.

Definition no_tools : gmap string pyval := {[ "tools" := PList [] ]}.

Definition list_content : gmap string pyval :=
  {[ "content" := PList [PDict {[ "text" := PStr "test" ]}] ]}.

Definition text_content : gmap string pyval := {[ "content" := PStr "x" ]}.

Definition conforming_table : list (string * pyval) :=
  [ ("initialize", result_of initialize_result);
    ("tools/list", result_of one_tool);
    ("tools/call", result_of list_content);
    ("ping", result_of ∅) ].

(** A conforming child that exits promptly. *)
Definition conforming_server : environment :=
  table_server conforming_table (Some 1).

(** The same child, except that it ignores the termination signal. *)
Definition stubborn_server : environment :=
  table_server conforming_table None.

(** A child whose tool answers with a text instead of a list of content
    items. *)
Definition text_content_server : environment :=
  table_server
    [ ("tools/list", result_of one_tool); ("tools/call", result_of text_content) ]
    (Some 0).

(** A child whose only tool has no name. *)
Definition nameless_tool_server : environment :=
  table_server [ ("tools/list", result_of {[ "tools" := PList [PDict ∅] ]}) ] (Some 0).

(** A child that offers no tool. *)
Definition empty_tools_server : environment :=
  table_server [ ("tools/list", result_of no_tools) ] (Some 0).

(** A child that answers every method with a JSON-RPC error. *)
Definition bare_server : environment := table_server [] (Some 0).

(** A child that answers the invalid method with an empty result. *)
Definition lenient_server : environment :=
  table_server [ ("nonexistent/method", result_of ∅) ] (Some 0).

(** A child that answers [initialize] without [serverInfo]. *)
Definition anonymous_server : environment :=
  table_server
    [ ("initialize", result_of (delete "serverInfo" initialize_result)) ] (Some 0).

(** A command that cannot be launched. *)
Definition missing_command : environment :=
  {| spawn := fun _ _ =>
       Some (Exn "FileNotFoundError" "[Errno 2] No such file or directory: 'nosuch'");
     exchange := fun _ => EndOfStream;
     exit_delay := Some 0 |}.

(** The state right after a successful [start]. *)
Definition started (cmd : list string) : state :=
  {| client := {| server_cmd := cmd; cwd := None;
                  _process := Some {| args := cmd; popen_cwd := None |};
                  _request_id := 0 |};
     wire := [];
     waited := 0 |}.

(** ** The rest of the client and its callers *)

(** The [notification] dict built by [send_notification]: no [id]. *)
Definition build_notification (method : string) (params : pyval) : pyval :=
  let notification : gmap string pyval :=
    {[ "jsonrpc" := PStr "2.0"; "method" := PStr method ]} in
  PDict (if truthy params then <[ "params" := params ]> notification else notification).

Section Notification.

(** What writing or flushing the last message of the list raises, if
    anything, all the messages written so far being given oldest first. *)
Variable write_error : list pyval -> option exn.

(** [MCPTestClient.send_notification]: one write, no read. *)
Definition send_notification (method : string) (params : pyval) : M unit :=
  self <- get_client ;;
  match _process self with
  | None => raise (RuntimeError "Server not started")
  | Some _ =>
      let notification := build_notification method params in
      fun st =>
        let st' :=
          {| client := client st;
             wire := (wire st ++ [notification])%list;
             waited := waited st |} in
        match write_error (wire st') with
        | Some exc => (Err exc, st')
        | None => (Ok tt, st')
        end
  end.

End Notification.








Section Cli.

Variable E : environment.
Variable py_str : pyval -> string.

(** [cmd.split()] *)
Variable str_split : string -> list string.



End Cli.

(** ** Vocabulary of the further statements *)

(** [m] leaves the state as it found it. *)
Definition stateless {A} (m : M A) : Prop :=
  forall st, snd (m st) = st.

(** [m] writes nothing, or one [tools/call] request. *)
Definition calls_at_most_once {A} (m : M A) : Prop :=
  forall st, is_Some (_process (client st)) ->
    snd (m st) = st
    \/ exists tool_name, snd (m st) = sent st "tools/call" (tools_call_params tool_name).

(** The state right after a successful [start] of [cmd] in [dir]. *)
Definition started_in (cmd : list string) (dir : option string) : state :=
  {| client := {| server_cmd := cmd; cwd := dir;
                  _process := Some {| args := cmd; popen_cwd := dir |};
                  _request_id := 0 |};
     wire := [];
     waited := 0 |}.

(** The requests of a run that calls no tool. *)
Definition wire_without_call : list pyval :=
  [ build_request 1 "initialize" initialize_params;
    build_request 2 "tools/list" PNone;
    build_request 3 "tools/list" PNone;
    build_request 4 "ping" PNone;
    build_request 5 "nonexistent/method" PNone ].

(** The requests of a run that calls the tool [tool_name]. *)
Definition wire_with_call (tool_name : pyval) : list pyval :=
  [ build_request 1 "initialize" initialize_params;
    build_request 2 "tools/list" PNone;
    build_request 3 "tools/list" PNone;
    build_request 4 "tools/call" (tools_call_params tool_name);
    build_request 5 "ping" PNone;
    build_request 6 "nonexistent/method" PNone ].

(** The names of the results of a complete run, in order. *)
Definition probe_names : list string :=
  [ "server_start"; "initialize"; "tools/list"; "tools/call"; "ping";
    "unknown_method"; "server_stop" ].

(** The failing result a probe records for the exception [exc]. *)
Definition failure (name : string) (exc : exn) : TestResult.t :=
  TestResult.mk name false (exn_str exc) None.

(** A child whose pipes are closed: every exchange ends without a line. *)
Definition dead_child (exit : option nat) : environment :=
  {| spawn := fun _ _ => None;
     exchange := fun _ => EndOfStream;
     exit_delay := exit |}.

(** The state after the initialize probe, the tools/list probe and the
    re-fetch of the tools/call probe. *)
Definition after_fetches (st : state) : state :=
  sent (sent (sent st "initialize" initialize_params) "tools/list" PNone)
       "tools/list" PNone.

(** The state after the ping and unknown_method probes. *)
Definition after_last_probes (st : state) : state :=
  sent (sent st "ping" PNone) "nonexistent/method" PNone.

(** The two results that frame a complete run. *)
Definition start_ok : TestResult.t :=
  TestResult.mk "server_start" true "Server started successfully" None.

Definition stop_ok : TestResult.t :=
  TestResult.mk "server_stop" true "Server stopped cleanly" None.

(** * Properties *)

(** ** The report *)

Lemma sum_ones {A} (l : list A) : sum_list (map (fun _ => 1) l) = length l.
Proof. induction l as [|x l IH]; simpl; [reflexivity | now rewrite IH]. Qed.

Lemma passed_length (report : TestReport.t) :
  TestReport.passed report
  = length (filter (fun r => TestResult.passed r = true) (TestReport.results report)).
Proof. unfold TestReport.passed. apply sum_ones. Qed.

Lemma failed_length (report : TestReport.t) :
  TestReport.failed report
  = length (filter (fun r => negb (TestResult.passed r) = true) (TestReport.results report)).
Proof. unfold TestReport.failed. apply sum_ones. Qed.

Lemma counts_split (l : list TestResult.t) :
  length l
  = length (filter (fun r => TestResult.passed r = true) l)
    + length (filter (fun r => negb (TestResult.passed r) = true) l).
Proof.
  induction l as [|r l IH]; [reflexivity|].
  rewrite !filter_cons.
  destruct r as [n [|] m resp]; simpl in *;
    repeat case_decide; simpl; try discriminate; try congruence; lia.
Qed.

(** C9. For every report, [total] is [passed] plus [failed]; the three are
    functions of the result sequence alone (nothing is stored beside
    [results]), so after an [append] they already count the new result. *)
Theorem total_is_passed_plus_failed (report : TestReport.t) :
  TestReport.total report = TestReport.passed report + TestReport.failed report
  /\ forall r : TestResult.t,
       let report' := TestReport.append report r in
       TestReport.total report' = S (TestReport.total report)
       /\ TestReport.passed report'
          = TestReport.passed report + (if TestResult.passed r then 1 else 0)
       /\ TestReport.failed report'
          = TestReport.failed report + (if TestResult.passed r then 0 else 1).
Proof.
  split.
  - rewrite passed_length, failed_length. apply counts_split.
  - intros r report'. subst report'.
    rewrite !passed_length, !failed_length.
    unfold TestReport.total, TestReport.append. simpl.
    rewrite !filter_app, !length_app, !filter_cons, !filter_nil.
    destruct r as [n [|] m resp]; simpl in *;
      repeat case_decide; simpl; try discriminate; try congruence; lia.
Qed.

(** ** The probes *)

Section Properties.

Variable E : environment.
Variable py_str : pyval -> string.

(** With a child running, [send_request] writes one request, bumps the id
    and returns or raises according to the exchange. *)
Lemma send_request_answers st method params rp :
  answers E st method params rp ->
  send_request E method params st = (reply_result rp, sent st method params).
Proof.
  intros [[p Hp] Hrp].
  unfold send_request, bind, get_client, sent, next_request in *.
  rewrite Hp. simpl. rewrite Hrp. destruct rp; reflexivity.
Qed.

(** A probe never raises: what its body raises becomes a failing result
    that carries [str(exc)]. *)
Lemma probe_catches name body st :
  probe name body st
  = match body st with
    | (Ok r, st') => (Ok r, st')
    | (Err exc, st') => (Ok (TestResult.mk name false (exn_str exc) None), st')
    end.
Proof. unfold probe, try_except. destruct (body st) as [[r|exc] st']; reflexivity. Qed.

Lemma start_failure_report cmd dir exc :
  spawn E cmd dir = Some exc ->
  run_test_suite E py_str cmd dir
  = (Ok (TestReport.mk [TestResult.mk "server_start" false (exn_str exc) None]),
     initial_state (MCPTestClient_init cmd dir)).
Proof.
  intros Hspawn. unfold run_test_suite, start, bind, get_client, raise. simpl.
  rewrite Hspawn. reflexivity.
Qed.

(** C8. If the server process cannot be started, the run ends at once: the
    report holds exactly one result, the failing [server_start] with the
    failure's message, and nothing was written to the child. *)
Theorem failed_start_aborts_run cmd dir exc :
  spawn E cmd dir = Some exc ->
  exists st,
    run_test_suite E py_str cmd dir
    = (Ok (TestReport.mk [TestResult.mk "server_start" false (exn_str exc) None]), st)
    /\ wire st = [] /\ _process (client st) = None.
Proof.
  intros Hspawn. exists (initial_state (MCPTestClient_init cmd dir)). split.
  - exact (start_failure_report cmd dir exc Hspawn).
  - split; reflexivity.
Qed.

(** C7. When the reply to the deliberately invalid method is a JSON object,
    the unknown_method probe passes if and only if that object has an
    [error] key; in particular the reply [{"result": {}}] fails it. *)
Theorem unknown_method_passes_iff_error st d :
  answers E st "nonexistent/method" PNone (Reply (PDict d)) ->
  exists r,
    probe "unknown_method" (unknown_method_body E) st
    = (Ok r, sent st "nonexistent/method" PNone)
    /\ TestResult.name r = "unknown_method"
    /\ (TestResult.passed r = true <-> is_Some (d !! "error"))
    /\ (d = {[ "result" := PDict ∅ ]} ->
        TestResult.passed r = false
        /\ TestResult.message r = "Should have returned error").
Proof.
  intros Hans.
  rewrite probe_catches. unfold unknown_method_body, bind.
  rewrite (send_request_answers _ _ _ _ Hans). simpl.
  eexists. split; [reflexivity|]. simpl. split; [reflexivity|]. split.
  - apply bool_decide_eq_true.
  - intros ->. split; reflexivity.
Qed.

Lemma missing_fields_inj v1 i1 c1 v2 i2 c2 :
  missing_fields v1 i1 c1 = missing_fields v2 i2 c2 ->
  v1 = v2 /\ i1 = i2 /\ c1 = c2.
Proof.
  destruct v1, i1, c1, v2, i2, c2; intros H; try discriminate H; auto.
Qed.

(** The failure message spells none of the three keys, whatever is missing. *)
Lemma missing_fields_spells_no_key version info caps :
  str_contains "protocolVersion" (missing_fields version info caps) = false
  /\ str_contains "serverInfo" (missing_fields version info caps) = false
  /\ str_contains "capabilities" (missing_fields version info caps) = false.
Proof. destruct version, info, caps; repeat split; vm_compute; reflexivity. Qed.

(** C2, as the code has it. When the reply to [initialize] is a JSON object
    whose [result], if any, is a mapping, the initialize probe passes if and
    only if there is a [result] holding the three keys [protocolVersion],
    [serverInfo] and [capabilities]; when the result lacks some of them the
    probe fails and its message is
    [Missing fields: version=.. info=.. caps=..]: it always lists the three
    labels, each with [True] or [False] for the presence of its key, so that
    the labels flagged [False] are those of the missing keys, and it
    contains the name of none of the keys. *)
Theorem initialize_passes_iff_three_keys st d :
  answers E st "initialize" initialize_params (Reply (PDict d)) ->
  (forall v, d !! "result" = Some v -> exists rd, v = PDict rd) ->
  exists r,
    probe "initialize" (initialize_body E py_str) st
    = (Ok r, sent st "initialize" initialize_params)
    /\ TestResult.name r = "initialize"
    /\ (TestResult.passed r = true <->
        exists rd, d !! "result" = Some (PDict rd)
          /\ is_Some (rd !! "protocolVersion")
          /\ is_Some (rd !! "serverInfo")
          /\ is_Some (rd !! "capabilities"))
    /\ (forall rd, d !! "result" = Some (PDict rd) ->
        ~ (is_Some (rd !! "protocolVersion")
           /\ is_Some (rd !! "serverInfo")
           /\ is_Some (rd !! "capabilities")) ->
        TestResult.passed r = false
        /\ TestResult.message r
           = missing_fields (has_key rd "protocolVersion")
               (has_key rd "serverInfo") (has_key rd "capabilities")
        /\ (forall version info caps,
              TestResult.message r = missing_fields version info caps ->
              version = has_key rd "protocolVersion"
              /\ info = has_key rd "serverInfo"
              /\ caps = has_key rd "capabilities")
        /\ str_contains "protocolVersion" (TestResult.message r) = false
        /\ str_contains "serverInfo" (TestResult.message r) = false
        /\ str_contains "capabilities" (TestResult.message r) = false).
Proof.
  intros Hans Hshape.
  rewrite probe_catches. unfold initialize_body, bind.
  rewrite (send_request_answers _ _ _ _ Hans).
  cbn [reply_result eval py_in].
  destruct (d !! "result") as [v|] eqn:Hres.
  - destruct (Hshape v eq_refl) as [rd ->].
    rewrite bool_decide_eq_true_2 by eauto.
    cbn [py_getitem]. rewrite Hres. cbn [py_in ret].
    fold (has_key rd "protocolVersion") (has_key rd "serverInfo")
         (has_key rd "capabilities").
    eexists. split; [reflexivity|].
    cbn [TestResult.name TestResult.passed TestResult.message].
    split; [reflexivity|]. split; [split|].
    + intros Hok. apply andb_prop in Hok as [Hok Hc].
      apply andb_prop in Hok as [Hv Hi].
      exists rd. unfold has_key in *.
      apply bool_decide_eq_true in Hv, Hi, Hc. auto.
    + intros (rd' & Heq & Hv & Hi & Hc). inversion Heq; subst rd'.
      unfold has_key. rewrite !bool_decide_eq_true_2 by assumption. reflexivity.
    + intros rd' Heq Hmiss. inversion Heq; subst rd'.
      assert (Hf : has_key rd "protocolVersion" && has_key rd "serverInfo"
                   && has_key rd "capabilities" = false).
      { apply not_true_is_false. intros Hok. apply Hmiss.
        apply andb_prop in Hok as [Hok Hc]. apply andb_prop in Hok as [Hv Hi].
        unfold has_key in *. apply bool_decide_eq_true in Hv, Hi, Hc. auto. }
      rewrite Hf. split; [reflexivity|]. split; [reflexivity|]. split.
      * intros version info caps Hmsg. symmetry in Hmsg.
        apply missing_fields_inj in Hmsg. destruct Hmsg as (-> & -> & ->). auto.
      * exact (missing_fields_spells_no_key (has_key rd "protocolVersion")
                 (has_key rd "serverInfo") (has_key rd "capabilities")).
  - rewrite bool_decide_eq_false_2 by (intros [? ?]; discriminate).
    unfold error_message, bind. cbn [eval py_get ret].
    eexists. split; [reflexivity|]. cbn [TestResult.name TestResult.passed].
    split; [reflexivity|]. split; [split|].
    + discriminate.
    + intros (rd & Heq & _). discriminate Heq.
    + intros rd Heq. discriminate Heq.
Qed.

Lemma py_len_positive v n :
  py_len v = Ok n -> (0 < n <-> nonempty_sized v).
Proof.
  destruct v as [| | | | s|l|d]; simpl; try discriminate; intros [= <-].
  - destruct s; simpl; split; try lia; congruence.
  - destruct l; simpl; split; try lia; congruence.
  - split.
    + intros Hn ->. rewrite map_size_empty in Hn. lia.
    + intros Hne. destruct (size d) eqn:Hsz; [|lia].
      apply map_size_empty_inv in Hsz. contradiction.
Qed.

(** C6. When the reply to [tools/list] is an object whose result holds a
    [tools] list, the tools/list probe passes, whatever the list (the empty
    one included); when that list is empty the tools/call probe records the
    passing "skipped" result and has written nothing but its own
    [tools/list] request: no [tools/call] request is attempted. *)
Theorem empty_tool_list_passes_and_skips st d rd :
  answers E st "tools/list" PNone (Reply (PDict d)) ->
  d !! "result" = Some (PDict rd) ->
  (forall l, rd !! "tools" = Some (PList l) ->
     probe "tools/list" (tools_list_body E py_str) st
     = (Ok (TestResult.mk "tools/list" true
              ("Found " ++ str_nat (length l) ++ " tools") (Some (PDict d))),
        sent st "tools/list" PNone))
  /\ (rd !! "tools" = Some (PList []) ->
      probe "tools/call" (tools_call_body E py_str) st
      = (Ok (TestResult.mk "tools/call" true "No tools to test (skipped)" None),
         sent st "tools/list" PNone)
      /\ wire (sent st "tools/list" PNone)
         = (wire st ++ [next_request st "tools/list" PNone])%list
      /\ ~ requests_method "tools/call" (next_request st "tools/list" PNone)).
Proof.
  intros Hans Hres. split.
  - intros l Htools. rewrite probe_catches. unfold tools_list_body, bind.
    rewrite (send_request_answers _ _ _ _ Hans).
    cbn [reply_result eval py_in].
    rewrite bool_decide_eq_true_2 by (rewrite Hres; eauto).
    cbn [py_getitem]. rewrite Hres. cbn [py_get]. rewrite Htools.
    reflexivity.
  - intros Htools. split; [|split; [reflexivity|]].
    + rewrite probe_catches. unfold tools_call_body, bind.
      rewrite (send_request_answers _ _ _ _ Hans).
      cbn [reply_result eval py_get]. rewrite Hres. cbn [from_option id py_get].
      rewrite Htools. reflexivity.
    + intros (dreq & Heq & Hm). unfold next_request, build_request in Heq.
      cbn [truthy] in Heq. injection Heq as <-.
      vm_compute in Hm. discriminate Hm.
Qed.

(** C10. When the reply to the tools/call probe's re-fetch is an object
    with no [result] (an error response, say), or whose result is a mapping
    with no [tools] key, the probe does what it does for an empty tool
    list: it records the passing "No tools to test (skipped)" result after
    its single [tools/list] request. *)
Theorem missing_tool_list_is_skipped st d :
  answers E st "tools/list" PNone (Reply (PDict d)) ->
  (d !! "result" = None
   \/ exists rd, d !! "result" = Some (PDict rd) /\ rd !! "tools" = None) ->
  probe "tools/call" (tools_call_body E py_str) st
  = (Ok (TestResult.mk "tools/call" true "No tools to test (skipped)" None),
     sent st "tools/list" PNone).
Proof.
  intros Hans Hshape.
  rewrite probe_catches. unfold tools_call_body, bind.
  rewrite (send_request_answers _ _ _ _ Hans).
  cbn [reply_result eval py_get].
  destruct Hshape as [Hres | (rd & Hres & Htools)]; rewrite Hres; cbn [from_option id py_get].
  - rewrite lookup_empty. reflexivity.
  - rewrite Htools. reflexivity.
Qed.

Lemma tools_call_request_shape st nm :
  exists dreq,
    next_request st "tools/call" (tools_call_params nm) = PDict dreq
    /\ dreq !! "method" = Some (PStr "tools/call")
    /\ dreq !! "params"
       = Some (PDict {[ "name" := nm;
                        "arguments" := PDict {[ "query" := PStr "test" ]} ]}).
Proof.
  unfold next_request, build_request.
  replace (truthy (tools_call_params nm)) with true by reflexivity.
  eexists. split; [reflexivity|]. split; reflexivity.
Qed.

(** C5, as the code has it. When the re-fetched tool list is non-empty and
    its first entry is a mapping with a [name], the tools/call probe sends
    one [tools/call] request with that name and the arguments
    [{"query": "test"}]; it passes if and only if the reply is an object
    whose result is a mapping with a [content] of positive length: a
    non-empty list, or a non-empty str or mapping.  For a [content] that
    is a list, it passes if and only if the list is non-empty. *)
Theorem tools_call_calls_first_tool st d rd td ts nm rp2 :
  answers E st "tools/list" PNone (Reply (PDict d)) ->
  d !! "result" = Some (PDict rd) ->
  rd !! "tools" = Some (PList (PDict td :: ts)) ->
  td !! "name" = Some nm ->
  answers E (sent st "tools/list" PNone) "tools/call" (tools_call_params nm) rp2 ->
  let st2 := sent (sent st "tools/list" PNone) "tools/call" (tools_call_params nm) in
  exists r,
    probe "tools/call" (tools_call_body E py_str) st = (Ok r, st2)
    /\ (exists dreq,
          last (wire st2) = Some (PDict dreq)
          /\ dreq !! "method" = Some (PStr "tools/call")
          /\ dreq !! "params"
             = Some (PDict {[ "name" := nm;
                              "arguments" := PDict {[ "query" := PStr "test" ]} ]}))
    /\ (TestResult.passed r = true <->
        exists d2 rd2 c,
          rp2 = Reply (PDict d2)
          /\ d2 !! "result" = Some (PDict rd2)
          /\ rd2 !! "content" = Some c
          /\ nonempty_sized c)
    /\ (forall d2 rd2 l,
          rp2 = Reply (PDict d2) ->
          d2 !! "result" = Some (PDict rd2) ->
          rd2 !! "content" = Some (PList l) ->
          (TestResult.passed r = true <-> l <> [])).
Proof.
  intros Hans Hres Htools Hname Hans2 st2.
  assert (Hwire : exists dreq,
             last (wire st2) = Some (PDict dreq)
             /\ dreq !! "method" = Some (PStr "tools/call")
             /\ dreq !! "params"
                = Some (PDict {[ "name" := nm;
                                 "arguments" := PDict {[ "query" := PStr "test" ]} ]})).
  { destruct (tools_call_request_shape (sent st "tools/list" PNone) nm)
      as (dreq & Hreq & Hm & Hp).
    exists dreq. split; [|auto].
    subst st2. unfold sent at 1. cbn [wire]. rewrite last_snoc, Hreq. reflexivity. }
  rewrite probe_catches. unfold tools_call_body, bind.
  rewrite (send_request_answers _ _ _ _ Hans).
  cbn [reply_result eval py_get]. rewrite Hres. cbn [from_option id py_get].
  rewrite Htools. cbn [from_option id truthy length Nat.eqb negb py_getitem0 py_getitem].
  rewrite Hname. rewrite (send_request_answers _ _ _ _ Hans2). fold st2.
  destruct rp2 as [exc| |exc|resp2]; cbn [reply_result].
  1-3: (eexists; split; [reflexivity|]; split; [exact Hwire|];
        cbn [TestResult.passed]; split; [split|];
        [ discriminate
        | intros (d2 & rd2 & c & Heq & _); discriminate Heq
        | intros d2 rd2 l Heq; discriminate Heq ]).
  destruct resp2 as [| b | z | f | s | l | d2].
  1-4: (cbn [py_in]; eexists; split; [reflexivity|]; split; [exact Hwire|];
        cbn [TestResult.passed]; split; [split|];
        [ discriminate
        | intros (d2 & rd2 & c & Heq & _); discriminate Heq
        | intros d2 rd2 l Heq; discriminate Heq ]).
  - cbn [py_in]. destruct (str_contains "result" s);
      cbn [py_getitem error_message bind eval py_get];
      (eexists; split; [reflexivity|]; split; [exact Hwire|];
       cbn [TestResult.passed]; split; [split|];
       [ discriminate
       | intros (d2 & rd2 & c & Heq & _); discriminate Heq
       | intros d2 rd2 l' Heq; discriminate Heq ]).
  - cbn [py_in]. destruct (existsb (str_eq "result") l);
      cbn [py_getitem error_message bind eval py_get];
      (eexists; split; [reflexivity|]; split; [exact Hwire|];
       cbn [TestResult.passed]; split; [split|];
       [ discriminate
       | intros (d2 & rd2 & c & Heq & _); discriminate Heq
       | intros d2 rd2 l' Heq; discriminate Heq ]).
  - cbn [py_in py_getitem].
    destruct (d2 !! "result") as [v|] eqn:Hres2.
    + rewrite bool_decide_eq_true_2 by eauto.
      destruct v as [| b | z | f | s | l | rd2];
        try (cbn [py_get]; eexists; split; [reflexivity|]; split; [exact Hwire|];
             cbn [TestResult.passed]; split; [split|];
             [ discriminate
             | intros (d2' & rd2 & c & Heq & Hr & _); inversion Heq; subst d2';
               rewrite Hres2 in Hr; discriminate Hr
             | intros d2' rd2 l' Heq Hr; inversion Heq; subst d2';
               rewrite Hres2 in Hr; discriminate Hr ]).
      cbn [py_get].
      destruct (rd2 !! "content") as [c|] eqn:Hc; cbn [from_option id].
      * destruct (py_len c) as [n|exc] eqn:Hlen.
        -- eexists; split; [reflexivity|]; split; [exact Hwire|].
           cbn [TestResult.passed]. split; [split|].
           ++ intros Hpos. apply Nat.ltb_lt in Hpos.
              exists d2, rd2, c. repeat split; try assumption.
              apply (py_len_positive _ _ Hlen). exact Hpos.
           ++ intros (d2' & rd2' & c' & Heq & Hr & Hc' & Hne).
              inversion Heq; subst d2'. rewrite Hres2 in Hr.
              inversion Hr; subst rd2'. rewrite Hc in Hc'.
              inversion Hc'; subst c'.
              apply Nat.ltb_lt. apply (py_len_positive _ _ Hlen). exact Hne.
           ++ intros d2' rd2' l Heq Hr Hc'.
              inversion Heq; subst d2'. rewrite Hres2 in Hr.
              inversion Hr; subst rd2'. rewrite Hc in Hc'.
              inversion Hc'; subst c.
              rewrite Nat.ltb_lt. apply (py_len_positive _ _ Hlen).
        -- eexists; split; [reflexivity|]; split; [exact Hwire|].
           cbn [TestResult.passed]. split; [split|].
           ++ discriminate.
           ++ intros (d2' & rd2' & c' & Heq & Hr & Hc' & Hne).
              inversion Heq; subst d2'. rewrite Hres2 in Hr.
              inversion Hr; subst rd2'. rewrite Hc in Hc'.
              inversion Hc'; subst c'.
              destruct c; simpl in Hlen, Hne; try contradiction; discriminate Hlen.
           ++ intros d2' rd2' l Heq Hr Hc'.
              inversion Heq; subst d2'. rewrite Hres2 in Hr.
              inversion Hr; subst rd2'. rewrite Hc in Hc'.
              inversion Hc'; subst c. discriminate Hlen.
      * cbn [py_len length]. eexists; split; [reflexivity|]; split; [exact Hwire|].
        cbn [TestResult.passed]. split; [split|].
        -- discriminate.
        -- intros (d2' & rd2' & c' & Heq & Hr & Hc' & Hne).
           inversion Heq; subst d2'. rewrite Hres2 in Hr.
           inversion Hr; subst rd2'. rewrite Hc in Hc'. discriminate Hc'.
        -- intros d2' rd2' l Heq Hr Hc'.
           inversion Heq; subst d2'. rewrite Hres2 in Hr.
           inversion Hr; subst rd2'. rewrite Hc in Hc'. discriminate Hc'.
    + rewrite bool_decide_eq_false_2 by (intros [? ?]; discriminate).
      cbn [error_message bind eval py_get ret].
      eexists; split; [reflexivity|]; split; [exact Hwire|].
      cbn [TestResult.passed]. split; [split|].
      * discriminate.
      * intros (d2' & rd2' & c' & Heq & Hr & _).
        inversion Heq; subst d2'. rewrite Hres2 in Hr. discriminate Hr.
      * intros d2' rd2' l Heq Hr.
        inversion Heq; subst d2'. rewrite Hres2 in Hr. discriminate Hr.
Qed.

(** ** The whole run *)

Lemma names_bind {A} name (m : M A) (k : A -> M TestResult.t) :
  (forall a, names_result name (k a)) -> names_result name (bind m k).
Proof.
  intros Hk st r st' H. unfold bind in H.
  destruct (m st) as [[a|exc] st1]; [|discriminate H].
  exact (Hk a _ _ _ H).
Qed.

Lemma names_ret name (r : TestResult.t) :
  TestResult.name r = name -> names_result name (ret r).
Proof. intros Hn st r' st' [= <- _]. exact Hn. Qed.

Lemma names_probe name body :
  names_result name body -> names_result name (probe name body).
Proof.
  intros Hb st r st' H. rewrite probe_catches in H.
  destruct (body st) as [[r0|exc] st1] eqn:Hbody.
  - injection H as <- <-. exact (Hb _ _ _ Hbody).
  - injection H as <- <-. reflexivity.
Qed.

Ltac names_steps :=
  repeat first
    [ apply names_bind; intros ?
    | apply names_ret; reflexivity
    | match goal with
      | |- names_result _ (if ?b then _ else _) => destruct b
      end ].

Lemma initialize_named : names_result "initialize" (initialize_body E py_str).
Proof. unfold initialize_body. names_steps. Qed.

Lemma tools_list_named : names_result "tools/list" (tools_list_body E py_str).
Proof. unfold tools_list_body. names_steps. Qed.

Lemma tools_call_named : names_result "tools/call" (tools_call_body E py_str).
Proof. unfold tools_call_body. names_steps. Qed.

Lemma ping_named : names_result "ping" (ping_body E py_str).
Proof. unfold ping_body. names_steps. Qed.

Lemma unknown_method_named : names_result "unknown_method" (unknown_method_body E).
Proof. unfold unknown_method_body. names_steps. Qed.

Lemma keeps_bind {A B} (m : M A) (k : A -> M B) :
  keeps_process m -> (forall a, keeps_process (k a)) -> keeps_process (bind m k).
Proof.
  intros Hm Hk st x st' H. unfold bind in H.
  destruct (m st) as [[a|exc] st1] eqn:Hm1.
  - destruct (Hm _ _ _ Hm1) as [Hp Hw]. destruct (Hk a _ _ _ H) as [Hp' Hw'].
    split; congruence.
  - injection H as <- <-. exact (Hm _ _ _ Hm1).
Qed.

Lemma keeps_ret {A} (a : A) : keeps_process (ret a).
Proof. intros st x st' [= <- <-]. split; reflexivity. Qed.

Lemma keeps_eval {A} (r : res A) : keeps_process (eval r).
Proof. intros st x st' [= <- <-]. split; reflexivity. Qed.

Lemma keeps_send_request method params :
  keeps_process (send_request E method params).
Proof.
  intros st x st' H. unfold send_request, bind, get_client, raise in H.
  destruct (_process (client st)) as [p|] eqn:Hp.
  - simpl in H.
    destruct (exchange E _); injection H as <- <-; simpl; split; congruence.
  - injection H as <- <-. split; congruence.
Qed.

Lemma keeps_probe name body :
  keeps_process body -> keeps_process (probe name body).
Proof.
  intros Hb st x st' H. rewrite probe_catches in H.
  destruct (body st) as [[r0|exc] st1] eqn:Hbody;
    injection H as <- <-; exact (Hb _ _ _ Hbody).
Qed.

Ltac keeps_steps :=
  repeat first
    [ apply keeps_send_request
    | apply keeps_eval
    | apply keeps_ret
    | apply keeps_bind; [|intros ?]
    | match goal with
      | |- keeps_process (if ?b then _ else _) => destruct b
      end ].

Lemma initialize_keeps : keeps_process (initialize_body E py_str).
Proof. unfold initialize_body, error_message. keeps_steps. Qed.

Lemma tools_list_keeps : keeps_process (tools_list_body E py_str).
Proof. unfold tools_list_body, error_message. keeps_steps. Qed.

Lemma tools_call_keeps : keeps_process (tools_call_body E py_str).
Proof. unfold tools_call_body, error_message. keeps_steps. Qed.

Lemma ping_keeps : keeps_process (ping_body E py_str).
Proof. unfold ping_body, error_message. keeps_steps. Qed.

Lemma unknown_method_keeps : keeps_process (unknown_method_body E).
Proof. unfold unknown_method_body. keeps_steps. Qed.

(** A probe always hands back a result. *)
Lemma probe_returns name body st :
  exists r st', probe name body st = (Ok r, st').
Proof.
  rewrite probe_catches. destruct (body st) as [[r|exc] st']; eauto.
Qed.

(** The five request probes add five results, named in order, and leave
    the process handle alone. *)
Lemma request_probes_shape report st :
  exists r1 r2 r3 r4 r5 st',
    request_probes E py_str report st
    = (Ok (TestReport.mk (TestReport.results report ++ [r1; r2; r3; r4; r5])%list), st')
    /\ TestResult.name r1 = "initialize"
    /\ TestResult.name r2 = "tools/list"
    /\ TestResult.name r3 = "tools/call"
    /\ TestResult.name r4 = "ping"
    /\ TestResult.name r5 = "unknown_method"
    /\ _process (client st') = _process (client st)
    /\ waited st' = waited st.
Proof.
  unfold request_probes, bind.
  destruct (probe_returns "initialize" (initialize_body E py_str) st)
    as (r1 & st1 & H1). rewrite H1.
  destruct (probe_returns "tools/list" (tools_list_body E py_str) st1)
    as (r2 & st2 & H2). rewrite H2.
  destruct (probe_returns "tools/call" (tools_call_body E py_str) st2)
    as (r3 & st3 & H3). rewrite H3.
  destruct (probe_returns "ping" (ping_body E py_str) st3)
    as (r4 & st4 & H4). rewrite H4.
  destruct (probe_returns "unknown_method" (unknown_method_body E) st4)
    as (r5 & st5 & H5). rewrite H5.
  exists r1, r2, r3, r4, r5, st5.
  pose proof (names_probe _ _ initialize_named _ _ _ H1).
  pose proof (names_probe _ _ tools_list_named _ _ _ H2).
  pose proof (names_probe _ _ tools_call_named _ _ _ H3).
  pose proof (names_probe _ _ ping_named _ _ _ H4).
  pose proof (names_probe _ _ unknown_method_named _ _ _ H5).
  destruct (keeps_probe _ _ initialize_keeps _ _ _ H1) as [P1 W1].
  destruct (keeps_probe _ _ tools_list_keeps _ _ _ H2) as [P2 W2].
  destruct (keeps_probe _ _ tools_call_keeps _ _ _ H3) as [P3 W3].
  destruct (keeps_probe _ _ ping_keeps _ _ _ H4) as [P4 W4].
  destruct (keeps_probe _ _ unknown_method_keeps _ _ _ H5) as [P5 W5].
  unfold ret, TestReport.append. cbn [TestReport.results].
  rewrite <- !app_assoc. cbn [app].
  repeat split; try assumption; congruence.
Qed.

(** ** [stop] *)

Lemma exits_within_dec timeout :
  {d | exit_delay E = Some d /\ d <= timeout} + {~ exits_within E timeout}.
Proof.
  destruct (exit_delay E) as [d|] eqn:Hd.
  - destruct (le_dec d timeout) as [Hle|Hgt].
    + left. exists d. auto.
    + right. intros (d' & Heq & Hle). rewrite Hd in Heq.
      injection Heq as <-. contradiction.
  - right. intros (d' & Heq & _). rewrite Hd in Heq. discriminate Heq.
Qed.

Lemma Popen_wait_exits p timeout d st :
  exit_delay E = Some d -> d <= timeout ->
  Popen_wait E py_str p timeout st
  = (Ok tt, {| client := client st; wire := wire st; waited := waited st + d |}).
Proof.
  intros Hd Hle. unfold Popen_wait. rewrite Hd.
  apply Nat.leb_le in Hle. rewrite Hle. reflexivity.
Qed.

Lemma Popen_wait_times_out p timeout st :
  ~ exits_within E timeout ->
  Popen_wait E py_str p timeout st
  = (Err (TimeoutExpired py_str (args p) timeout), gave_up_after st timeout).
Proof.
  intros Hno. unfold Popen_wait, gave_up_after.
  destruct (exit_delay E) as [d|] eqn:Hd; [|reflexivity].
  destruct (d <=? timeout)%nat eqn:Hle; [|reflexivity].
  exfalso. apply Hno. exists d. split; [exact Hd|]. now apply Nat.leb_le.
Qed.

Lemma stop_without_process st :
  _process (client st) = None -> stop E py_str st = (Ok tt, st).
Proof. intros Hp. unfold stop, bind, get_client. rewrite Hp. reflexivity. Qed.

Lemma stop_exits st p d :
  _process (client st) = Some p -> exit_delay E = Some d -> d <= 5 ->
  stop E py_str st = (Ok tt, stopped_after st d).
Proof.
  intros Hp Hd Hle. unfold stop, bind, get_client. rewrite Hp.
  rewrite (Popen_wait_exits p 5 d _ Hd Hle). reflexivity.
Qed.

Lemma stop_times_out st p :
  _process (client st) = Some p -> ~ exits_within E 5 ->
  stop E py_str st = (Err (TimeoutExpired py_str (args p) 5), gave_up_after st 5).
Proof.
  intros Hp Hno. unfold stop, bind, get_client. rewrite Hp.
  rewrite (Popen_wait_times_out p 5 _ Hno). reflexivity.
Qed.

(** C4, as the code has it. [stop] waits at most 5 time units for the
    child.  With no process held it does nothing.  With a process that
    exits within the 5 units it clears the handle and returns, and a
    second [stop] then does nothing.  With a process still running when
    the 5 units have elapsed it raises [TimeoutExpired] and keeps the
    handle. *)
Theorem stop_waits_at_most_5 st :
  (_process (client st) = None -> stop E py_str st = (Ok tt, st))
  /\ (forall p d, _process (client st) = Some p ->
        exit_delay E = Some d -> d <= 5 ->
        stop E py_str st = (Ok tt, stopped_after st d)
        /\ stop E py_str (stopped_after st d) = (Ok tt, stopped_after st d))
  /\ (forall p, _process (client st) = Some p ->
        ~ exits_within E 5 ->
        stop E py_str st
        = (Err (TimeoutExpired py_str (args p) 5), gave_up_after st 5)
        /\ _process (client (gave_up_after st 5)) = Some p)
  /\ waited (snd (stop E py_str st)) <= waited st + 5.
Proof.
  split; [|split; [|split]].
  - apply stop_without_process.
  - intros p d Hp Hd Hle. split.
    + exact (stop_exits st p d Hp Hd Hle).
    + apply stop_without_process. reflexivity.
  - intros p Hp Hno. split; [|exact Hp].
    exact (stop_times_out st p Hp Hno).
  - destruct (_process (client st)) as [p|] eqn:Hp.
    + destruct (exits_within_dec 5) as [(d & Hd & Hle)|Hno].
      * rewrite (stop_exits st p d Hp Hd Hle). simpl. lia.
      * rewrite (stop_times_out st p Hp Hno). simpl. lia.
    + rewrite (stop_without_process st Hp). simpl. lia.
Qed.

(** ** [run_test_suite] *)

(** Once the child is started, the run is the five request probes followed
    by [stop]: the report is returned if [stop] returns, and what [stop]
    raises leaves [run_test_suite]. *)
Lemma run_test_suite_started cmd dir :
  spawn E cmd dir = None ->
  exists r1 r2 r3 r4 r5 st5,
    TestResult.name r1 = "initialize"
    /\ TestResult.name r2 = "tools/list"
    /\ TestResult.name r3 = "tools/call"
    /\ TestResult.name r4 = "ping"
    /\ TestResult.name r5 = "unknown_method"
    /\ _process (client st5) = Some {| args := cmd; popen_cwd := dir |}
    /\ run_test_suite E py_str cmd dir
       = match stop E py_str st5 with
         | (Ok _, st6) =>
             (Ok (TestReport.mk
                    [TestResult.mk "server_start" true "Server started successfully" None;
                     r1; r2; r3; r4; r5;
                     TestResult.mk "server_stop" true "Server stopped cleanly" None]),
              st6)
         | (Err exc, st6) => (Err exc, st6)
         end.
Proof.
  intros Hspawn.
  unfold run_test_suite, start. unfold bind at 1. unfold get_client at 1.
  cbn [initial_state client MCPTestClient_init server_cmd cwd].
  rewrite Hspawn. cbn [set_client].
  match goal with
  | |- context [request_probes E py_str ?rep] =>
      match goal with
      | |- context [bind (request_probes E py_str rep) _ ?st] =>
          destruct (request_probes_shape rep st)
            as (r1 & r2 & r3 & r4 & r5 & st5 & Hrun & N1 & N2 & N3 & N4 & N5 & Hp & _);
          unfold bind at 1; rewrite Hrun
      end
  end.
  exists r1, r2, r3, r4, r5, st5.
  do 5 (split; [assumption|]).
  split; [exact Hp|].
  unfold bind, ret. destruct (stop E py_str st5) as [[[]|exc] st6]; reflexivity.
Qed.

(** If the child is still running 5 units after [terminate()], the
    [TimeoutExpired] raised by [stop] leaves [run_test_suite]: no report is
    returned. *)
Lemma run_test_suite_raises cmd dir :
  spawn E cmd dir = None -> ~ exits_within E 5 ->
  exists st, run_test_suite E py_str cmd dir = (Err (TimeoutExpired py_str cmd 5), st).
Proof.
  intros Hspawn Hno.
  destruct (run_test_suite_started cmd dir Hspawn)
    as (r1 & r2 & r3 & r4 & r5 & st5 & _ & _ & _ & _ & _ & Hp & Hrun).
  rewrite (stop_times_out st5 _ Hp Hno) in Hrun. eauto.
Qed.

(** In a report that [run_test_suite] does return, a [server_stop] result is
    present if and only if [server_start] passed, and it is a passing one.
    This says nothing of the runs that [stop] makes raise. *)
Lemma returned_report_stop_iff_start cmd dir report st :
  run_test_suite E py_str cmd dir = (Ok report, st) ->
  (has_result "server_stop" report <-> start_passed report)
  /\ (forall r, In r (TestReport.results report) ->
        TestResult.name r = "server_stop" -> TestResult.passed r = true).
Proof.
  intros H.
  destruct (spawn E cmd dir) as [exc|] eqn:Hspawn.
  - rewrite (start_failure_report cmd dir exc Hspawn) in H. injection H as <- <-.
    split; [split|].
    + intros (r & [<-|[]] & Hn). discriminate Hn.
    + intros (r & [<-|[]] & _ & Hp). discriminate Hp.
    + intros r [<-|[]] Hn. discriminate Hn.
  - destruct (run_test_suite_started cmd dir Hspawn)
      as (r1 & r2 & r3 & r4 & r5 & st5 & N1 & N2 & N3 & N4 & N5 & Hp & Hrun).
    rewrite Hrun in H.
    destruct (stop E py_str st5) as [[[]|exc] st6]; [|discriminate H].
    injection H as <- <-. split; [split|].
    + intros _. eexists. split; [left; reflexivity|]. split; reflexivity.
    + intros _. eexists. cbn [TestReport.results].
      split; [do 6 right; left; reflexivity|reflexivity].
    + cbn [TestReport.results]. intros r Hin Hn.
      repeat (destruct Hin as [<-|Hin]; [try reflexivity; congruence|]).
      destruct Hin.
Qed.

End Properties.

(** ** Closed instances *)

(** C1. A child that starts, answers every probe as it should and ignores
    the termination signal: [stop] raises [TimeoutExpired] after the six
    requests, outside any [try], and [run_test_suite] raises it instead of
    returning a report. *)
Theorem stop_timeout_leaves_run_test_suite :
  exists st,
    run_test_suite stubborn_server plain_str ["server"] None
    = (Err (TimeoutExpired plain_str ["server"] 5), st)
    /\ length (wire st) = 6
    /\ is_Some (_process (client st)).
Proof.
  eexists. split; [vm_compute; reflexivity|]. split; [reflexivity|].
  eexists. reflexivity.
Qed.

(** C3. The same child: [server_start] has passed and the five request
    probes have added their results, but [stop] raises before the
    [server_stop] result is appended; the report as it then stands holds a
    passing [server_start] and no [server_stop], and it is never returned. *)
Theorem server_stop_missing_after_stop_timeout :
  exists report st5 st6,
    request_probes stubborn_server plain_str (TestReport.mk [start_ok])
      (started_in ["server"] None) = (Ok report, st5)
    /\ start_passed report
    /\ ~ has_result "server_stop" report
    /\ stop stubborn_server plain_str st5
       = (Err (TimeoutExpired plain_str ["server"] 5), st6)
    /\ run_test_suite stubborn_server plain_str ["server"] None
       = (Err (TimeoutExpired plain_str ["server"] 5), st6)
    /\ ~ exists report' st,
          run_test_suite stubborn_server plain_str ["server"] None = (Ok report', st).
Proof.
  eexists. eexists. eexists.
  split; [vm_compute; reflexivity|].
  split; [eexists; split; [left; reflexivity|split; reflexivity]|].
  split.
  { intros (r & Hin & Hn). cbn [TestReport.results] in Hin.
    repeat (destruct Hin as [<-|Hin]; [discriminate Hn|]). destruct Hin. }
  split; [vm_compute; reflexivity|].
  split; [vm_compute; reflexivity|].
  intros (report' & st & H). vm_compute in H. discriminate H.
Qed.

(** Against C2 as stated. A reply that lacks only [serverInfo]: the message
    of the failing result does not contain the missing key's name, and it
    does contain the labels of the two keys that are present. *)
Lemma initialize_message_names_no_key :
  exists r st',
    probe "initialize" (initialize_body anonymous_server plain_str) (started ["server"])
    = (Ok r, st')
    /\ TestResult.response r = Some (result_of (delete "serverInfo" initialize_result))
    /\ delete "serverInfo" initialize_result !! "serverInfo" = None
    /\ is_Some (delete "serverInfo" initialize_result !! "protocolVersion")
    /\ is_Some (delete "serverInfo" initialize_result !! "capabilities")
    /\ TestResult.passed r = false
    /\ TestResult.message r = "Missing fields: version=True info=False caps=True"
    /\ str_contains "serverInfo" (TestResult.message r) = false
    /\ str_contains "version" (TestResult.message r) = true
    /\ str_contains "caps" (TestResult.message r) = true.
Proof.
  eexists. eexists. split; [vm_compute; reflexivity|].
  split; [reflexivity|]. split; [reflexivity|].
  split; [eexists; reflexivity|]. split; [eexists; reflexivity|].
  repeat split; reflexivity.
Qed.

(** Against C4 as stated. With the same child, [stop] alone raises: the
    child is still running when the timeout elapses, and the call does not
    return. *)
Lemma stop_raises_when_child_outlives_timeout :
  exit_delay stubborn_server = None
  /\ stop stubborn_server plain_str (started ["server"])
     = (Err (TimeoutExpired plain_str ["server"] 5),
        gave_up_after (started ["server"]) 5)
  /\ ~ exists st', stop stubborn_server plain_str (started ["server"]) = (Ok tt, st').
Proof.
  split; [reflexivity|]. split; [reflexivity|].
  intros [st' H]. vm_compute in H. discriminate H.
Qed.

(** Against C5 as stated. A [content] that is a text, not a list, passes
    the tools/call probe;
    and a non-empty tool list whose first entry has no [name] makes the probe
    fail on the [KeyError] before any [tools/call] request is written. *)
Lemma tools_call_passes_on_text_content :
  (exists r st',
      probe "tools/call" (tools_call_body text_content_server plain_str)
        (started ["server"]) = (Ok r, st')
      /\ TestResult.passed r = true
      /\ TestResult.response r = Some (result_of text_content)
      /\ ~ exists l, text_content !! "content" = Some (PList l))
  /\ (exists st',
        probe "tools/call" (tools_call_body nameless_tool_server plain_str)
          (started ["server"])
        = (Ok (TestResult.mk "tools/call" false "'name'" None), st')
        /\ wire st' = [next_request (started ["server"]) "tools/list" PNone]).
Proof.
  split.
  - eexists. eexists. split; [vm_compute; reflexivity|].
    split; [reflexivity|]. split; [reflexivity|].
    intros [l H]. vm_compute in H. discriminate H.
  - eexists. split; [vm_compute; reflexivity|]. reflexivity.
Qed.

Example anonymous_initialize_message :
  exists st',
    probe "initialize" (initialize_body anonymous_server plain_str) (started ["server"])
    = (Ok (TestResult.mk "initialize" false
             "Missing fields: version=True info=False caps=True"
             (Some (result_of (delete "serverInfo" initialize_result)))), st').
Proof. eexists. vm_compute. reflexivity. Qed.

Example closed_pipe_run :
  exists st,
    run_test_suite
      {| spawn := fun _ _ => None; exchange := fun _ => EndOfStream; exit_delay := Some 0 |}
      plain_str ["server"] None
    = (Ok (TestReport.mk
             [TestResult.mk "server_start" true "Server started successfully" None;
              TestResult.mk "initialize" false "No response from server" None;
              TestResult.mk "tools/list" false "No response from server" None;
              TestResult.mk "tools/call" false "No response from server" None;
              TestResult.mk "ping" false "No response from server" None;
              TestResult.mk "unknown_method" false "No response from server" None;
              TestResult.mk "server_stop" true "Server stopped cleanly" None]), st).
Proof. eexists. vm_compute. reflexivity. Qed.

(** *** Instances of the statements above *)

Lemma failed_start_aborts_run_witness :
  spawn missing_command ["nosuch"] None
  = Some (Exn "FileNotFoundError" "[Errno 2] No such file or directory: 'nosuch'")
  /\ exists st,
       run_test_suite missing_command plain_str ["nosuch"] None
       = (Ok (TestReport.mk
                [TestResult.mk "server_start" false
                   "[Errno 2] No such file or directory: 'nosuch'" None]), st)
       /\ wire st = [] /\ _process (client st) = None.
Proof.
  split; [reflexivity|].
  apply (failed_start_aborts_run missing_command plain_str ["nosuch"] None
           (Exn "FileNotFoundError" "[Errno 2] No such file or directory: 'nosuch'")).
  reflexivity.
Defined.

Lemma unknown_method_witness :
  answers lenient_server (started ["server"]) "nonexistent/method" PNone
    (Reply (result_of ∅))
  /\ exists r,
       probe "unknown_method" (unknown_method_body lenient_server) (started ["server"])
       = (Ok r, sent (started ["server"]) "nonexistent/method" PNone)
       /\ TestResult.passed r = false.
Proof.
  assert (H : answers lenient_server (started ["server"]) "nonexistent/method" PNone
                (Reply (PDict (result_map ∅)))).
  { split; [eexists; reflexivity | vm_compute; reflexivity]. }
  split; [exact H|].
  destruct (unknown_method_passes_iff_error lenient_server _ _ H)
    as (r & Hrun & _ & _ & Hempty).
  exists r. split; [exact Hrun|]. apply Hempty. reflexivity.
Defined.

Lemma initialize_witness :
  answers conforming_server (started ["server"]) "initialize" initialize_params
    (Reply (result_of initialize_result))
  /\ exists r,
       probe "initialize" (initialize_body conforming_server plain_str) (started ["server"])
       = (Ok r, sent (started ["server"]) "initialize" initialize_params)
       /\ TestResult.passed r = true.
Proof.
  assert (H : answers conforming_server (started ["server"]) "initialize"
                initialize_params (Reply (PDict (result_map initialize_result)))).
  { split; [eexists; reflexivity | vm_compute; reflexivity]. }
  assert (Hshape : forall v, result_map initialize_result !! "result" = Some v ->
                             exists rd, v = PDict rd).
  { intros v Hv. unfold result_map in Hv. rewrite lookup_singleton_eq in Hv.
    injection Hv as <-. eexists. reflexivity. }
  split; [exact H|].
  destruct (initialize_passes_iff_three_keys conforming_server plain_str _ _ H Hshape)
    as (r & Hrun & _ & Hiff & _).
  exists r. split; [exact Hrun|]. apply Hiff.
  exists initialize_result. split; [reflexivity|].
  repeat split; eexists; reflexivity.
Defined.

Lemma empty_tool_list_witness :
  answers empty_tools_server (started ["server"]) "tools/list" PNone
    (Reply (result_of no_tools))
  /\ probe "tools/list" (tools_list_body empty_tools_server plain_str) (started ["server"])
     = (Ok (TestResult.mk "tools/list" true "Found 0 tools" (Some (result_of no_tools))),
        sent (started ["server"]) "tools/list" PNone)
  /\ probe "tools/call" (tools_call_body empty_tools_server plain_str) (started ["server"])
     = (Ok (TestResult.mk "tools/call" true "No tools to test (skipped)" None),
        sent (started ["server"]) "tools/list" PNone).
Proof.
  assert (H : answers empty_tools_server (started ["server"]) "tools/list" PNone
                (Reply (PDict (result_map no_tools)))).
  { split; [eexists; reflexivity | vm_compute; reflexivity]. }
  split; [exact H|].
  destruct (empty_tool_list_passes_and_skips empty_tools_server plain_str
              (started ["server"]) (result_map no_tools) no_tools H eq_refl)
    as [Hlist Hcall].
  split.
  - exact (Hlist [] eq_refl).
  - exact (proj1 (Hcall eq_refl)).
Defined.

Lemma missing_tool_list_witness :
  answers bare_server (started ["server"]) "tools/list" PNone
    (Reply (PDict {[ "error" := PDict {[ "code" := PInt (-32601) ]} ]}))
  /\ probe "tools/call" (tools_call_body bare_server plain_str) (started ["server"])
     = (Ok (TestResult.mk "tools/call" true "No tools to test (skipped)" None),
        sent (started ["server"]) "tools/list" PNone).
Proof.
  assert (H : answers bare_server (started ["server"]) "tools/list" PNone
                (Reply (PDict {[ "error" := PDict {[ "code" := PInt (-32601) ]} ]}))).
  { split; [eexists; reflexivity | vm_compute; reflexivity]. }
  split; [exact H|].
  apply (missing_tool_list_is_skipped bare_server plain_str _ _ H).
  left. reflexivity.
Defined.

Lemma tools_call_witness :
  answers conforming_server (started ["server"]) "tools/list" PNone
    (Reply (result_of one_tool))
  /\ answers conforming_server (sent (started ["server"]) "tools/list" PNone)
       "tools/call" (tools_call_params (PStr "echo")) (Reply (result_of list_content))
  /\ exists r st2,
       probe "tools/call" (tools_call_body conforming_server plain_str) (started ["server"])
       = (Ok r, st2)
       /\ TestResult.passed r = true.
Proof.
  assert (H : answers conforming_server (started ["server"]) "tools/list" PNone
                (Reply (PDict (result_map one_tool)))).
  { split; [eexists; reflexivity | vm_compute; reflexivity]. }
  assert (H2 : answers conforming_server (sent (started ["server"]) "tools/list" PNone)
                 "tools/call" (tools_call_params (PStr "echo"))
                 (Reply (PDict (result_map list_content)))).
  { split; [eexists; reflexivity | vm_compute; reflexivity]. }
  split; [exact H|]. split; [exact H2|].
  destruct (tools_call_calls_first_tool conforming_server plain_str
              (started ["server"]) (result_map one_tool) one_tool echo_tool []
              (PStr "echo") _ H eq_refl eq_refl eq_refl H2)
    as (r & Hrun & _ & Hiff & _).
  exists r. eexists. split; [exact Hrun|]. apply Hiff.
  exists (result_map list_content), list_content,
    (PList [PDict {[ "text" := PStr "test" ]}]).
  split; [reflexivity|]. split; [reflexivity|]. split; [reflexivity|].
  simpl. discriminate.
Defined.

Lemma stop_witness :
  _process (client (started ["server"])) = Some {| args := ["server"]; popen_cwd := None |}
  /\ exit_delay conforming_server = Some 1
  /\ stop conforming_server plain_str (started ["server"])
     = (Ok tt, stopped_after (started ["server"]) 1)
  /\ stop conforming_server plain_str (stopped_after (started ["server"]) 1)
     = (Ok tt, stopped_after (started ["server"]) 1).
Proof.
  split; [reflexivity|]. split; [reflexivity|].
  destruct (stop_waits_at_most_5 conforming_server plain_str (started ["server"]))
    as (_ & Hexit & _ & _).
  apply (Hexit {| args := ["server"]; popen_cwd := None |} 1);
    [reflexivity | reflexivity | lia].
Defined.

(** * Further properties of the client and of the run *)

Section Further.

Variable E : environment.
Variable py_str : pyval -> string.

(** ** What a probe writes *)

Lemma bind_send_request {B} method params (k : pyval -> M B) st :
  is_Some (_process (client st)) ->
  bind (send_request E method params) k st
  = match reply_result (exchange E (wire (sent st method params))) with
    | Ok v => k v (sent st method params)
    | Err exc => (Err exc, sent st method params)
    end.
Proof.
  intros Hp. unfold bind.
  rewrite (send_request_answers E st method params
             (exchange E (wire (sent st method params)))) by (split; [exact Hp|reflexivity]).
  destruct (reply_result _); reflexivity.
Qed.

Lemma sent_keeps_process st method params :
  is_Some (_process (client st)) ->
  is_Some (_process (client (sent st method params))).
Proof. intros Hp. exact Hp. Qed.

Lemma stateless_ret {A} (a : A) : stateless (ret a).
Proof. intros st. reflexivity. Qed.

Lemma stateless_eval {A} (r : res A) : stateless (eval r).
Proof. intros st. reflexivity. Qed.

Lemma stateless_bind {A B} (m : M A) (k : A -> M B) :
  stateless m -> (forall a, stateless (k a)) -> stateless (bind m k).
Proof.
  intros Hm Hk st. unfold bind. specialize (Hm st).
  destruct (m st) as [[a|exc] st1]; simpl in Hm; subst st1.
  - apply Hk.
  - reflexivity.
Qed.

Ltac stateless_steps :=
  repeat first
    [ apply stateless_ret
    | apply stateless_eval
    | apply stateless_bind; [|intros ?]
    | match goal with
      | |- stateless (if ?b then _ else _) => destruct b
      end ].

Lemma probe_state name body st :
  snd (probe name body st) = snd (body st).
Proof. rewrite probe_catches. destruct (body st) as [[r|exc] st']; reflexivity. Qed.

(** A body that sends one request and then only computes leaves the state
    [send_request] left. *)
Lemma send_then_compute {B} method params (k : pyval -> M B) st :
  is_Some (_process (client st)) ->
  (forall v, stateless (k v)) ->
  snd (bind (send_request E method params) k st) = sent st method params.
Proof.
  intros Hp Hk. rewrite (bind_send_request _ _ _ _ Hp).
  destruct (reply_result _) as [v|exc]; [apply Hk|reflexivity].
Qed.

Lemma initialize_state st :
  is_Some (_process (client st)) ->
  snd (probe "initialize" (initialize_body E py_str) st)
  = sent st "initialize" initialize_params.
Proof.
  intros Hp. rewrite probe_state. unfold initialize_body.
  apply (send_then_compute _ _ _ _ Hp). intros v.
  unfold error_message. stateless_steps.
Qed.

Lemma tools_list_state st :
  is_Some (_process (client st)) ->
  snd (probe "tools/list" (tools_list_body E py_str) st) = sent st "tools/list" PNone.
Proof.
  intros Hp. rewrite probe_state. unfold tools_list_body.
  apply (send_then_compute _ _ _ _ Hp). intros v.
  unfold error_message. stateless_steps.
Qed.

Lemma ping_state st :
  is_Some (_process (client st)) ->
  snd (probe "ping" (ping_body E py_str) st) = sent st "ping" PNone.
Proof.
  intros Hp. rewrite probe_state. unfold ping_body.
  apply (send_then_compute _ _ _ _ Hp). intros v.
  unfold error_message. stateless_steps.
Qed.

Lemma unknown_method_state st :
  is_Some (_process (client st)) ->
  snd (probe "unknown_method" (unknown_method_body E) st)
  = sent st "nonexistent/method" PNone.
Proof.
  intros Hp. rewrite probe_state. unfold unknown_method_body.
  apply (send_then_compute _ _ _ _ Hp). intros v. stateless_steps.
Qed.

Lemma calls_bind_eval {A B} (r : res A) (k : A -> M B) :
  (forall a, calls_at_most_once (k a)) -> calls_at_most_once (bind (eval r) k).
Proof.
  intros Hk st Hp. unfold bind, eval.
  destruct r as [a|exc]; [exact (Hk a st Hp)|left; reflexivity].
Qed.

Lemma calls_of_stateless {A} (m : M A) : stateless m -> calls_at_most_once m.
Proof. intros Hm st _. left. apply Hm. Qed.

Lemma tools_call_state st :
  is_Some (_process (client st)) ->
  snd (probe "tools/call" (tools_call_body E py_str) st) = sent st "tools/list" PNone
  \/ exists tool_name,
       snd (probe "tools/call" (tools_call_body E py_str) st)
       = sent (sent st "tools/list" PNone) "tools/call" (tools_call_params tool_name).
Proof.
  intros Hp. rewrite probe_state. unfold tools_call_body.
  rewrite (bind_send_request _ _ _ _ Hp).
  destruct (reply_result _) as [resp|exc]; [|left; reflexivity].
  assert (Hp1 := sent_keeps_process st "tools/list" PNone Hp).
  revert Hp1. generalize (sent st "tools/list" PNone). intros st1 Hp1.
  match goal with
  | |- snd (?m st1) = st1 \/ _ => enough (Hc : calls_at_most_once m) by exact (Hc st1 Hp1)
  end.
  apply calls_bind_eval. intros result.
  apply calls_bind_eval. intros tools.
  destruct (truthy tools); [|apply calls_of_stateless; apply stateless_ret].
  apply calls_bind_eval. intros tool.
  apply calls_bind_eval. intros tool_name.
  intros st2 Hp2. right. exists tool_name.
  apply (send_then_compute _ _ _ _ Hp2). intros v.
  unfold error_message. stateless_steps.
Qed.

(** ** The requests of a run *)

Lemma request_probes_state report st :
  is_Some (_process (client st)) ->
  exists report' st5,
    request_probes E py_str report st = (Ok report', st5)
    /\ (st5 = after_last_probes (after_fetches st)
        \/ exists tool_name,
            st5 = after_last_probes
                    (sent (after_fetches st) "tools/call" (tools_call_params tool_name))).
Proof.
  intros Hp. unfold request_probes, bind.
  destruct (probe_returns "initialize" (initialize_body E py_str) st)
    as (r1 & st1 & H1). rewrite H1.
  assert (E1 : st1 = sent st "initialize" initialize_params).
  { rewrite <- (initialize_state st Hp), H1. reflexivity. }
  assert (Hp1 : is_Some (_process (client st1))) by (subst st1; exact Hp).
  destruct (probe_returns "tools/list" (tools_list_body E py_str) st1)
    as (r2 & st2 & H2). rewrite H2.
  assert (E2 : st2 = sent st1 "tools/list" PNone).
  { rewrite <- (tools_list_state st1 Hp1), H2. reflexivity. }
  assert (Hp2 : is_Some (_process (client st2))) by (subst st2; exact Hp1).
  destruct (probe_returns "tools/call" (tools_call_body E py_str) st2)
    as (r3 & st3 & H3). rewrite H3.
  assert (E3 : st3 = sent st2 "tools/list" PNone
               \/ exists tool_name,
                   st3 = sent (sent st2 "tools/list" PNone) "tools/call"
                              (tools_call_params tool_name)).
  { destruct (tools_call_state st2 Hp2) as [Hs|[nm Hs]]; rewrite H3 in Hs; simpl in Hs; eauto. }
  assert (Hp3 : is_Some (_process (client st3))).
  { destruct E3 as [->|[nm ->]]; exact Hp2. }
  destruct (probe_returns "ping" (ping_body E py_str) st3)
    as (r4 & st4 & H4). rewrite H4.
  assert (E4 : st4 = sent st3 "ping" PNone).
  { rewrite <- (ping_state st3 Hp3), H4. reflexivity. }
  assert (Hp4 : is_Some (_process (client st4))) by (subst st4; exact Hp3).
  destruct (probe_returns "unknown_method" (unknown_method_body E) st4)
    as (r5 & st5 & H5). rewrite H5.
  assert (E5 : st5 = sent st4 "nonexistent/method" PNone).
  { rewrite <- (unknown_method_state st4 Hp4), H5. reflexivity. }
  eexists. exists st5. split; [reflexivity|].
  unfold after_last_probes, after_fetches. subst st5 st4.
  destruct E3 as [->|[nm ->]]; subst st2 st1; [left; reflexivity|right; eauto].
Qed.

Lemma run_test_suite_spawned cmd dir :
  spawn E cmd dir = None ->
  run_test_suite E py_str cmd dir
  = bind (request_probes E py_str (TestReport.mk [start_ok]))
      (fun report =>
         bind (stop E py_str)
           (fun _ => ret (TestReport.append report stop_ok)))
      (started_in cmd dir).
Proof.
  intros Hspawn.
  unfold run_test_suite, start. unfold bind at 1. unfold get_client at 1.
  cbn [initial_state client MCPTestClient_init server_cmd cwd].
  rewrite Hspawn. reflexivity.
Qed.

Lemma stop_keeps_wire st :
  wire (snd (stop E py_str st)) = wire st
  /\ _request_id (client (snd (stop E py_str st))) = _request_id (client st).
Proof.
  destruct (_process (client st)) as [p|] eqn:Hp.
  - destruct (exits_within_dec E 5) as [(d & Hd & Hle)|Hno].
    + rewrite (stop_exits E py_str st p d Hp Hd Hle). split; reflexivity.
    + rewrite (stop_times_out E py_str st p Hp Hno). split; reflexivity.
  - rewrite (stop_without_process E py_str st Hp). split; reflexivity.
Qed.

Lemma stop_waits_boundedly st :
  waited (snd (stop E py_str st)) <= waited st + 5.
Proof.
  destruct (_process (client st)) as [p|] eqn:Hp.
  - destruct (exits_within_dec E 5) as [(d & Hd & Hle)|Hno].
    + rewrite (stop_exits E py_str st p d Hp Hd Hle). simpl. lia.
    + rewrite (stop_times_out E py_str st p Hp Hno). simpl. lia.
  - rewrite (stop_without_process E py_str st Hp). simpl. lia.
Qed.

Lemma snd_bind_ret {A B} (m : M A) (f : A -> B) st :
  snd (bind m (fun a => ret (f a)) st) = snd (m st).
Proof. unfold bind, ret. destruct (m st) as [[a|exc] st']; reflexivity. Qed.

Lemma run_final_state cmd dir :
  spawn E cmd dir = None ->
  exists st5,
    (st5 = after_last_probes (after_fetches (started_in cmd dir))
     \/ exists tool_name,
         st5 = after_last_probes
                 (sent (after_fetches (started_in cmd dir)) "tools/call"
                       (tools_call_params tool_name)))
    /\ wire (snd (run_test_suite E py_str cmd dir)) = wire st5
    /\ _request_id (client (snd (run_test_suite E py_str cmd dir)))
       = _request_id (client st5)
    /\ waited (snd (run_test_suite E py_str cmd dir)) <= 5.
Proof.
  intros Hspawn.
  rewrite (run_test_suite_spawned cmd dir Hspawn).
  destruct (request_probes_state (TestReport.mk [start_ok]) (started_in cmd dir))
    as (report & st5 & Hrun & Hst5); [eexists; reflexivity|].
  exists st5. split; [exact Hst5|].
  assert (Hsnd : snd (bind (request_probes E py_str (TestReport.mk [start_ok]))
                        (fun report =>
                           bind (stop E py_str)
                             (fun _ => ret (TestReport.append report stop_ok)))
                        (started_in cmd dir))
                 = snd (stop E py_str st5)).
  { unfold bind at 1. rewrite Hrun.
    apply (snd_bind_ret (stop E py_str) (fun _ => TestReport.append report stop_ok)). }
  rewrite Hsnd. destruct (stop_keeps_wire st5) as [Hw Hid].
  split; [exact Hw|]. split; [exact Hid|].
  pose proof (stop_waits_boundedly st5) as Hb.
  assert (Hz : waited st5 = 0) by (destruct Hst5 as [->|[nm ->]]; reflexivity).
  lia.
Qed.

(** Once the child is started, whatever it answers, a run writes the same
    five requests in the same order, with ids counting from 1, plus one
    [tools/call] request, in fourth place, when a tool is called; the
    request counter ends at the number of requests written. *)
Theorem run_writes_fixed_requests cmd dir :
  spawn E cmd dir = None ->
  let st := snd (run_test_suite E py_str cmd dir) in
  (wire st = wire_without_call
   \/ exists tool_name, wire st = wire_with_call tool_name)
  /\ _request_id (client st) = Z.of_nat (length (wire st)).
Proof.
  intros Hspawn st. subst st.
  destruct (run_final_state cmd dir Hspawn) as (st5 & Hst5 & -> & -> & _).
  destruct Hst5 as [->|[nm ->]].
  - split; [left; reflexivity|reflexivity].
  - split; [right; exists nm; reflexivity|reflexivity].
Qed.

(** ** Transport failures *)

Lemma probe_send_fails name method params (k : pyval -> M TestResult.t) st exc :
  is_Some (_process (client st)) ->
  reply_result (exchange E (wire (sent st method params))) = Err exc ->
  probe name (bind (send_request E method params) k) st
  = (Ok (failure name exc), sent st method params).
Proof.
  intros Hp Hexc. rewrite probe_catches.
  rewrite (bind_send_request _ _ _ _ Hp), Hexc. reflexivity.
Qed.

(** When the exchange for a probe's first request fails (the write raises,
    the pipe is closed, or the line cannot be decoded), the probe records a
    failing result whose message is that of the exception and which carries
    no response, and leaves the client ready for the next probe: one request
    written, the counter bumped. *)
Theorem transport_failure_fails_probe st rp exc :
  reply_result rp = Err exc ->
  (answers E st "initialize" initialize_params rp ->
   probe "initialize" (initialize_body E py_str) st
   = (Ok (failure "initialize" exc), sent st "initialize" initialize_params))
  /\ (answers E st "tools/list" PNone rp ->
      probe "tools/list" (tools_list_body E py_str) st
      = (Ok (failure "tools/list" exc), sent st "tools/list" PNone)
      /\ probe "tools/call" (tools_call_body E py_str) st
         = (Ok (failure "tools/call" exc), sent st "tools/list" PNone))
  /\ (answers E st "ping" PNone rp ->
      probe "ping" (ping_body E py_str) st
      = (Ok (failure "ping" exc), sent st "ping" PNone))
  /\ (answers E st "nonexistent/method" PNone rp ->
      probe "unknown_method" (unknown_method_body E) st
      = (Ok (failure "unknown_method" exc), sent st "nonexistent/method" PNone)).
Proof.
  intros Hexc.
  split; [|split; [|split]].
  - intros [Hp <-]. apply (probe_send_fails _ _ _ _ _ _ Hp Hexc).
  - intros [Hp <-]. split; apply (probe_send_fails _ _ _ _ _ _ Hp Hexc).
  - intros [Hp <-]. apply (probe_send_fails _ _ _ _ _ _ Hp Hexc).
  - intros [Hp <-]. apply (probe_send_fails _ _ _ _ _ _ Hp Hexc).
Qed.

(** A child that was started but fails every exchange the same way (it has
    died, say, and every read hits the closed pipe) still gets a complete
    report when it is reaped in time: the five request probes fail with the
    exception's message, one after the other, [server_start] and
    [server_stop] pass, and five requests were attempted. *)
Theorem unreachable_child_fails_every_probe cmd dir exc :
  spawn E cmd dir = None ->
  (forall reqs, reply_result (exchange E reqs) = Err exc) ->
  exits_within E 5 ->
  exists st,
    run_test_suite E py_str cmd dir
    = (Ok (TestReport.mk
             [ start_ok;
               failure "initialize" exc;
               failure "tools/list" exc;
               failure "tools/call" exc;
               failure "ping" exc;
               failure "unknown_method" exc;
               stop_ok ]), st)
    /\ wire st = wire_without_call.
Proof.
  intros Hspawn Hfail (d & Hd & Hle).
  rewrite (run_test_suite_spawned cmd dir Hspawn).
  unfold bind at 1. unfold request_probes.
  unfold bind at 1. unfold initialize_body.
  rewrite (probe_send_fails "initialize" _ _ _ _ exc) by first [apply Hfail | eexists; reflexivity].
  unfold bind at 1. unfold tools_list_body.
  rewrite (probe_send_fails "tools/list" _ _ _ _ exc) by first [apply Hfail | eexists; reflexivity].
  unfold bind at 1. unfold tools_call_body.
  rewrite (probe_send_fails "tools/call" _ _ _ _ exc) by first [apply Hfail | eexists; reflexivity].
  unfold bind at 1. unfold ping_body.
  rewrite (probe_send_fails "ping" _ _ _ _ exc) by first [apply Hfail | eexists; reflexivity].
  unfold bind at 1. unfold unknown_method_body.
  rewrite (probe_send_fails "unknown_method" _ _ _ _ exc) by first [apply Hfail | eexists; reflexivity].
  unfold ret at 1. unfold bind at 1.
  match goal with
  | |- context [stop E py_str ?s] =>
      rewrite (stop_exits E py_str s {| args := cmd; popen_cwd := dir |} d eq_refl Hd Hle)
  end.
  eexists. split; reflexivity.
Qed.

(** ** Whether a report comes back *)


(** Every report [run_test_suite] returns has one of two shapes: the single
    failing [server_start] when the child could not be started, or seven
    results named, in order, server_start, initialize, tools/list,
    tools/call, ping, unknown_method and server_stop, the first and the last
    passing. *)
Theorem report_has_one_or_seven_results cmd dir report st :
  run_test_suite E py_str cmd dir = (Ok report, st) ->
  (spawn E cmd dir <> None
   /\ map TestResult.name (TestReport.results report) = ["server_start"]
   /\ TestReport.total report = 1
   /\ TestReport.failed report = 1)
  \/ (spawn E cmd dir = None
      /\ map TestResult.name (TestReport.results report) = probe_names
      /\ TestReport.total report = 7
      /\ head (TestReport.results report) = Some start_ok
      /\ last (TestReport.results report) = Some stop_ok).
Proof.
  intros Hrun0.
  destruct (spawn E cmd dir) as [exc0|] eqn:Hspawn.
  - left. rewrite (start_failure_report E py_str cmd dir exc0 Hspawn) in Hrun0.
    injection Hrun0 as <- _. repeat split; discriminate || reflexivity.
  - right.
    destruct (run_test_suite_started E py_str cmd dir Hspawn)
      as (r1 & r2 & r3 & r4 & r5 & st5 & N1 & N2 & N3 & N4 & N5 & _ & Hrun).
    rewrite Hrun in Hrun0.
    destruct (stop E py_str st5) as [[[]|exc] st6]; [|discriminate Hrun0].
    injection Hrun0 as <- _.
    split; [reflexivity|]. split.
    + cbn [map TestReport.results]. rewrite N1, N2, N3, N4, N5. reflexivity.
    + repeat split; reflexivity.
Qed.

(** ** The remaining checks *)

(** When the reply to [ping] is a JSON object, the ping probe passes if and
    only if the object has a [result] key, whatever its value; a passing
    result says "Ping OK", a failing one quotes the [error] member (or
    [None]); either way the reply is attached. *)
Theorem ping_passes_iff_result st d :
  answers E st "ping" PNone (Reply (PDict d)) ->
  exists r,
    probe "ping" (ping_body E py_str) st = (Ok r, sent st "ping" PNone)
    /\ TestResult.name r = "ping"
    /\ (TestResult.passed r = true <-> is_Some (d !! "result"))
    /\ (TestResult.passed r = true -> TestResult.message r = "Ping OK")
    /\ (TestResult.passed r = false ->
        TestResult.message r = "Error: " ++ py_str (default PNone (d !! "error")))
    /\ TestResult.response r = Some (PDict d).
Proof.
  intros Hans. rewrite probe_catches. unfold ping_body, bind.
  rewrite (send_request_answers _ _ _ _ _ Hans).
  cbn [reply_result eval py_in].
  destruct (bool_decide (is_Some (d !! "result"))) eqn:Hres.
  - eexists. split; [reflexivity|]. cbn [TestResult.name TestResult.passed
      TestResult.message TestResult.response].
    split; [reflexivity|]. split; [|split; [reflexivity|split; [discriminate|reflexivity]]].
    split; [intros _; now apply bool_decide_eq_true in Hres | reflexivity].
  - unfold error_message, bind. cbn [eval py_get ret].
    eexists. split; [reflexivity|]. cbn [TestResult.name TestResult.passed
      TestResult.message TestResult.response].
    split; [reflexivity|]. split; [|split; [discriminate|split; reflexivity]].
    split; [discriminate|]. intros Hs. apply bool_decide_eq_false in Hres. contradiction.
Qed.

(** When the reply to [tools/list] is a JSON object, the tools/list probe
    passes if and only if its [result] is a mapping whose [tools] member is
    a list or is missing: a result without [tools] counts as an empty list
    and passes with "Found 0 tools". *)
Theorem tools_list_passes_iff st d :
  answers E st "tools/list" PNone (Reply (PDict d)) ->
  exists r,
    probe "tools/list" (tools_list_body E py_str) st
    = (Ok r, sent st "tools/list" PNone)
    /\ TestResult.name r = "tools/list"
    /\ (TestResult.passed r = true <->
        exists rd, d !! "result" = Some (PDict rd)
          /\ (rd !! "tools" = None \/ exists l, rd !! "tools" = Some (PList l)))
    /\ (forall rd, d !! "result" = Some (PDict rd) -> rd !! "tools" = None ->
        TestResult.message r = "Found 0 tools").
Proof.
  intros Hans. rewrite probe_catches. unfold tools_list_body, bind.
  rewrite (send_request_answers _ _ _ _ _ Hans).
  cbn [reply_result eval py_in py_getitem].
  destruct (d !! "result") as [v|] eqn:Hres.
  - rewrite bool_decide_eq_true_2 by eauto.
    destruct v as [| b | z | f | s | l | rd];
      try (cbn [py_get]; eexists; split; [reflexivity|]; split; [reflexivity|];
           cbn [TestResult.passed]; split; [split|];
           [ discriminate
           | intros (rd & Heq & _); discriminate Heq
           | intros rd Heq; discriminate Heq ]).
    cbn [py_get].
    destruct (rd !! "tools") as [tools|] eqn:Htools; cbn [from_option id].
    + destruct tools as [| b | z | f | s | l | td]; cbn [py_len isinstance_list];
        (eexists; split; [reflexivity|]; split; [reflexivity|];
         cbn [TestResult.passed]; split; [split|];
         [ try discriminate
         | try (intros (rd' & Heq & [Hn|[l' Hl]]); injection Heq as <-;
                rewrite Htools in *; discriminate)
         | intros rd' Heq Hn; injection Heq as <-; rewrite Htools in Hn; discriminate Hn ]).
      * intros _. exists rd. split; [reflexivity|]. right. eauto.
      * reflexivity.
    + cbn [py_len isinstance_list length].
      eexists; split; [reflexivity|]; split; [reflexivity|].
      cbn [TestResult.passed TestResult.message]. split; [split|].
      * intros _. exists rd. split; [reflexivity|]. left. exact Htools.
      * reflexivity.
      * reflexivity.
  - rewrite bool_decide_eq_false_2 by (intros [? ?]; discriminate).
    unfold error_message, bind. cbn [eval py_get ret].
    eexists. split; [reflexivity|]. split; [reflexivity|].
    cbn [TestResult.passed]. split; [split|].
    + discriminate.
    + intros (rd & Heq & _). discriminate Heq.
    + intros rd Heq. discriminate Heq.
Qed.

(** A reply object without [result] fails the initialize, tools/list and
    ping probes alike: the message is "Error: " followed by the [error]
    member as [str] prints it ([None] when there is none), and the reply is
    attached to the result. *)
Theorem error_reply_is_reported st d :
  d !! "result" = None ->
  let msg := "Error: " ++ py_str (default PNone (d !! "error")) in
  (answers E st "initialize" initialize_params (Reply (PDict d)) ->
   probe "initialize" (initialize_body E py_str) st
   = (Ok (TestResult.mk "initialize" false msg (Some (PDict d))),
      sent st "initialize" initialize_params))
  /\ (answers E st "tools/list" PNone (Reply (PDict d)) ->
      probe "tools/list" (tools_list_body E py_str) st
      = (Ok (TestResult.mk "tools/list" false msg (Some (PDict d))),
         sent st "tools/list" PNone))
  /\ (answers E st "ping" PNone (Reply (PDict d)) ->
      probe "ping" (ping_body E py_str) st
      = (Ok (TestResult.mk "ping" false msg (Some (PDict d))), sent st "ping" PNone)).
Proof.
  intros Hres msg. subst msg.
  assert (Hno : bool_decide (is_Some (d !! "result")) = false).
  { apply bool_decide_eq_false_2. rewrite Hres. intros [? ?]. discriminate. }
  split; [|split]; intros Hans; rewrite probe_catches.
  - unfold initialize_body, bind. rewrite (send_request_answers _ _ _ _ _ Hans).
    cbn [reply_result eval py_in]. rewrite Hno. reflexivity.
  - unfold tools_list_body, bind. rewrite (send_request_answers _ _ _ _ _ Hans).
    cbn [reply_result eval py_in]. rewrite Hno. reflexivity.
  - unfold ping_body, bind. rewrite (send_request_answers _ _ _ _ _ Hans).
    cbn [reply_result eval py_in]. rewrite Hno. reflexivity.
Qed.

(** ** Requests, notifications and the process handle *)

(** The request dict always carries [jsonrpc], the [id] and the [method];
    it carries [params] exactly when the params are truthy, so an empty
    mapping is left out like [None]. *)
Theorem falsy_params_are_omitted id method params :
  exists d,
    build_request id method params = PDict d
    /\ d !! "jsonrpc" = Some (PStr "2.0")
    /\ d !! "id" = Some (PInt id)
    /\ d !! "method" = Some (PStr method)
    /\ d !! "params" = (if truthy params then Some params else None)
    /\ build_request id method (PDict ∅) = build_request id method PNone.
Proof.
  unfold build_request. eexists. split; [reflexivity|].
  destruct (truthy params); repeat split; reflexivity.
Qed.

Lemma stop_clears_handle st st' :
  stop E py_str st = (Ok tt, st') -> _process (client st') = None.
Proof.
  intros H. destruct (_process (client st)) as [p|] eqn:Hp.
  - destruct (exits_within_dec E 5) as [(d & Hd & Hle)|Hno].
    + rewrite (stop_exits E py_str st p d Hp Hd Hle) in H. injection H as <-. reflexivity.
    + rewrite (stop_times_out E py_str st p Hp Hno) in H. discriminate H.
  - rewrite (stop_without_process E py_str st Hp) in H. injection H as <-. exact Hp.
Qed.

(** A client that was never started, or whose [stop] has returned, refuses
    to send: [send_request] and [send_notification] raise
    [RuntimeError("Server not started")], write nothing and leave the
    request counter alone. *)
Theorem sending_without_process_is_refused write_error method params :
  (forall cmd dir,
      let st := initial_state (MCPTestClient_init cmd dir) in
      send_request E method params st = (Err (RuntimeError "Server not started"), st)
      /\ send_notification write_error method params st
         = (Err (RuntimeError "Server not started"), st))
  /\ (forall st st',
        stop E py_str st = (Ok tt, st') ->
        send_request E method params st' = (Err (RuntimeError "Server not started"), st')
        /\ send_notification write_error method params st'
           = (Err (RuntimeError "Server not started"), st')).
Proof.
  split.
  - intros cmd dir st. split; reflexivity.
  - intros st st' Hstop. apply stop_clears_handle in Hstop.
    unfold send_request, send_notification, bind, get_client, raise.
    rewrite Hstop. split; reflexivity.
Qed.

(** A notification carries no [id] and does not touch the request counter,
    whether the write succeeds or raises: the next request gets the id it
    would have had without the notification.  With a child running, exactly
    one message is written and the call returns unless the write raises. *)
Theorem notification_leaves_request_ids write_error st method params :
  (exists d,
      build_notification method params = PDict d
      /\ d !! "id" = None
      /\ d !! "method" = Some (PStr method)
      /\ d !! "params" = (if truthy params then Some params else None))
  /\ (forall r st',
        send_notification write_error method params st = (r, st') ->
        _request_id (client st') = _request_id (client st)
        /\ forall method2 params2,
             next_request st' method2 params2 = next_request st method2 params2)
  /\ (is_Some (_process (client st)) ->
      let st' := {| client := client st;
                    wire := (wire st ++ [build_notification method params])%list;
                    waited := waited st |} in
      send_notification write_error method params st
      = (match write_error (wire st') with Some exc => Err exc | None => Ok tt end, st')).
Proof.
  split; [|split].
  - unfold build_notification. eexists. split; [reflexivity|].
    destruct (truthy params); repeat split; reflexivity.
  - intros r st' H. unfold send_notification, bind, get_client, raise in H.
    destruct (_process (client st)) as [p|].
    + simpl in H. destruct (write_error _); injection H as <- <-; split; reflexivity.
    + injection H as <- <-. split; reflexivity.
  - intros [p Hp] st'. unfold send_notification, bind, get_client.
    rewrite Hp. subst st'. simpl. destruct (write_error _); reflexivity.
Qed.

(** ** The report on the console and the exit status *)





(** When the re-fetched tool list is non-empty but its first entry is a
    mapping without [name], the tools/call probe fails on the [KeyError],
    whose message is the quoted key, and no [tools/call] request is written. *)
Theorem nameless_first_tool_fails_without_call st d rd td ts :
  answers E st "tools/list" PNone (Reply (PDict d)) ->
  d !! "result" = Some (PDict rd) ->
  rd !! "tools" = Some (PList (PDict td :: ts)) ->
  td !! "name" = None ->
  probe "tools/call" (tools_call_body E py_str) st
  = (Ok (TestResult.mk "tools/call" false "'name'" None), sent st "tools/list" PNone)
  /\ wire (sent st "tools/list" PNone)
     = (wire st ++ [next_request st "tools/list" PNone])%list.
Proof.
  intros Hans Hres Htools Hname. split; [|reflexivity].
  rewrite probe_catches. unfold tools_call_body, bind.
  rewrite (send_request_answers _ _ _ _ _ Hans).
  cbn [reply_result eval py_get]. rewrite Hres. cbn [from_option id py_get].
  rewrite Htools. cbn [from_option id truthy length Nat.eqb negb py_getitem0 py_getitem].
  rewrite Hname. reflexivity.
Qed.

End Further.

(** *** Instances of the further statements *)

Lemma run_writes_fixed_requests_witness :
  spawn conforming_server ["server"] None = None
  /\ wire (snd (run_test_suite conforming_server plain_str ["server"] None))
     = wire_with_call (PStr "echo")
  /\ _request_id (client (snd (run_test_suite conforming_server plain_str ["server"] None)))
     = 6%Z.
Proof.
  split; [reflexivity|].
  destruct (run_writes_fixed_requests conforming_server plain_str ["server"] None eq_refl)
    as [_ Hid].
  split; [vm_compute; reflexivity|].
  rewrite Hid. vm_compute. reflexivity.
Defined.

Lemma transport_failure_witness :
  reply_result EndOfStream = Err (RuntimeError "No response from server")
  /\ answers (dead_child (Some 0)) (started ["server"]) "ping" PNone EndOfStream
  /\ probe "ping" (ping_body (dead_child (Some 0)) plain_str) (started ["server"])
     = (Ok (failure "ping" (RuntimeError "No response from server")),
        sent (started ["server"]) "ping" PNone).
Proof.
  assert (H : answers (dead_child (Some 0)) (started ["server"]) "ping" PNone EndOfStream).
  { split; [eexists; reflexivity | reflexivity]. }
  split; [reflexivity|]. split; [exact H|].
  destruct (transport_failure_fails_probe (dead_child (Some 0)) plain_str
              (started ["server"]) EndOfStream
              (RuntimeError "No response from server") eq_refl)
    as (_ & _ & Hping & _).
  exact (Hping H).
Defined.

Lemma unreachable_child_witness :
  spawn (dead_child (Some 0)) ["server"] None = None
  /\ (forall reqs, reply_result (exchange (dead_child (Some 0)) reqs)
                   = Err (RuntimeError "No response from server"))
  /\ exits_within (dead_child (Some 0)) 5
  /\ exists report st,
       run_test_suite (dead_child (Some 0)) plain_str ["server"] None = (Ok report, st)
       /\ TestReport.failed report = 5.
Proof.
  assert (Hexit : exits_within (dead_child (Some 0)) 5).
  { exists 0. split; [reflexivity | lia]. }
  split; [reflexivity|]. split; [intros reqs; reflexivity|]. split; [exact Hexit|].
  destruct (unreachable_child_fails_every_probe (dead_child (Some 0)) plain_str
              ["server"] None (RuntimeError "No response from server")
              eq_refl (fun _ => eq_refl) Hexit)
    as (st & Hrun & _).
  eexists. exists st. split; [exact Hrun|]. reflexivity.
Defined.


Lemma report_shape_witness :
  exists report st,
    run_test_suite missing_command plain_str ["nosuch"] None = (Ok report, st)
    /\ TestReport.total report = 1.
Proof.
  eexists. eexists.
  assert (Hrun : run_test_suite missing_command plain_str ["nosuch"] None
                 = (Ok (TestReport.mk
                          [failure "server_start"
                             (Exn "FileNotFoundError"
                                "[Errno 2] No such file or directory: 'nosuch'")]),
                    initial_state (MCPTestClient_init ["nosuch"] None)))
    by reflexivity.
  split; [exact Hrun|].
  destruct (report_has_one_or_seven_results missing_command plain_str
              ["nosuch"] None _ _ Hrun)
    as [(_ & _ & Htotal & _)|(Hspawn & _)]; [exact Htotal|discriminate Hspawn].
Defined.

Lemma ping_witness :
  answers conforming_server (started ["server"]) "ping" PNone (Reply (result_of ∅))
  /\ exists r,
       probe "ping" (ping_body conforming_server plain_str) (started ["server"])
       = (Ok r, sent (started ["server"]) "ping" PNone)
       /\ TestResult.passed r = true.
Proof.
  assert (H : answers conforming_server (started ["server"]) "ping" PNone
                (Reply (PDict (result_map ∅)))).
  { split; [eexists; reflexivity | vm_compute; reflexivity]. }
  split; [exact H|].
  destruct (ping_passes_iff_result conforming_server plain_str _ _ H)
    as (r & Hrun & _ & Hiff & _).
  exists r. split; [exact Hrun|]. apply Hiff. eexists. reflexivity.
Defined.

Lemma tools_list_witness :
  answers conforming_server (started ["server"]) "tools/list" PNone
    (Reply (result_of one_tool))
  /\ exists r,
       probe "tools/list" (tools_list_body conforming_server plain_str) (started ["server"])
       = (Ok r, sent (started ["server"]) "tools/list" PNone)
       /\ TestResult.passed r = true.
Proof.
  assert (H : answers conforming_server (started ["server"]) "tools/list" PNone
                (Reply (PDict (result_map one_tool)))).
  { split; [eexists; reflexivity | vm_compute; reflexivity]. }
  split; [exact H|].
  destruct (tools_list_passes_iff conforming_server plain_str _ _ H)
    as (r & Hrun & _ & Hiff & _).
  exists r. split; [exact Hrun|]. apply Hiff.
  exists one_tool. split; [reflexivity|]. right. eexists. reflexivity.
Defined.

Lemma error_reply_witness :
  let d : gmap string pyval := {[ "error" := PDict {[ "code" := PInt (-32601) ]} ]} in
  d !! "result" = None
  /\ answers bare_server (started ["server"]) "ping" PNone (Reply (PDict d))
  /\ probe "ping" (ping_body bare_server plain_str) (started ["server"])
     = (Ok (TestResult.mk "ping" false "Error: <dict>" (Some (PDict d))),
        sent (started ["server"]) "ping" PNone).
Proof.
  intros d.
  assert (H : answers bare_server (started ["server"]) "ping" PNone (Reply (PDict d))).
  { split; [eexists; reflexivity | vm_compute; reflexivity]. }
  split; [reflexivity|]. split; [exact H|].
  destruct (error_reply_is_reported bare_server plain_str (started ["server"]) d eq_refl)
    as (_ & _ & Hping).
  exact (Hping H).
Defined.

Lemma sending_without_process_witness :
  stop conforming_server plain_str (started ["server"])
  = (Ok tt, stopped_after (started ["server"]) 1)
  /\ send_request conforming_server "ping" PNone (stopped_after (started ["server"]) 1)
     = (Err (RuntimeError "Server not started"), stopped_after (started ["server"]) 1).
Proof.
  assert (H : stop conforming_server plain_str (started ["server"])
              = (Ok tt, stopped_after (started ["server"]) 1)) by reflexivity.
  split; [exact H|].
  destruct (sending_without_process_is_refused conforming_server plain_str
              (fun _ => None) "ping" PNone) as [_ Hafter].
  exact (proj1 (Hafter _ _ H)).
Defined.

Lemma notification_witness :
  is_Some (_process (client (started ["server"])))
  /\ exists st',
       send_notification (fun _ => None) "notifications/initialized" PNone
         (started ["server"]) = (Ok tt, st')
       /\ _request_id (client st') = 0%Z.
Proof.
  assert (Hp : is_Some (_process (client (started ["server"])))) by (eexists; reflexivity).
  split; [exact Hp|].
  destruct (notification_leaves_request_ids (fun _ => None) (started ["server"])
              "notifications/initialized" PNone) as (_ & Hid & Hrun).
  eexists. split; [exact (Hrun Hp)|].
  exact (proj1 (Hid _ _ (Hrun Hp))).
Defined.


Lemma nameless_first_tool_witness :
  answers nameless_tool_server (started ["server"]) "tools/list" PNone
    (Reply (result_of {[ "tools" := PList [PDict ∅] ]}))
  /\ probe "tools/call" (tools_call_body nameless_tool_server plain_str) (started ["server"])
     = (Ok (TestResult.mk "tools/call" false "'name'" None),
        sent (started ["server"]) "tools/list" PNone).
Proof.
  assert (H : answers nameless_tool_server (started ["server"]) "tools/list" PNone
                (Reply (PDict (result_map {[ "tools" := PList [PDict ∅] ]})))).
  { split; [eexists; reflexivity | vm_compute; reflexivity]. }
  split; [exact H|].
  exact (proj1 (nameless_first_tool_fails_without_call nameless_tool_server plain_str
                  (started ["server"]) _ {[ "tools" := PList [PDict ∅] ]} ∅ []
                  H eq_refl eq_refl eq_refl)).
Defined.
